(** * Document workflow server: lifecycle handlers, access predicates and
    office sessions

  A shallow embedding of [server/routes.ts], [server/storage.ts] and
  [shared/schema.ts].

  - JavaScript data is kept as the code has it: JSON request values as
    [Js.value], [Map<string, V>] as an insertion-ordered association list
    ([JsMap.t]), dates as milliseconds in [Z].
  - The storage object is a record of the [MemStorage] maps, the storage
    that storage.ts exports outside production; every storage method is a
    function in a small state-and-exception monad [M].  A method that the
    handlers call and [MemStorage] does not declare ([updateDocument])
    throws a [TypeError] when it is called.
  - [new Date()], [Date.now()] and [generateId()] read an environment
    ([Env]): the k-th clock read and the k-th random id of a request.
  - Each route handler returns the HTTP response together with the new
    storage. *)

From Stdlib Require Import ZArith NArith List String Ascii Bool Lia.
From Stdlib Require Import DecimalString DecimalPos DecimalN.
Import ListNotations.
Set Warnings "-register-all".
Local Open Scope string_scope.
Local Open Scope Z_scope.

(* ===================================================================== *)
(** ** JavaScript values *)
(* ===================================================================== *)

Module Js.

(** A JSON value as it reaches a handler in [req.body].  Numbers are the
    integers; a JSON fraction behaves as a non-zero number in every test
    made here. *)
Inductive value : Type :=
| Undefined
| Null
| Bool (b : bool)
| Num (n : Z)
| Str (s : string)
| Arr (items : list value)
| Obj (fields : list (string * value)).

(** ToBoolean. *)
Definition truthy (v : value) : bool :=
  match v with
  | Undefined | Null => false
  | Bool b => b
  | Num n => negb (n =? 0)
  | Str s => negb (String.eqb s "")
  | Arr _ | Obj _ => true
  end.

(** [a || b]. *)
Definition or (a b : value) : value := if truthy a then a else b.

(** Property read [o.k] on an object; [undefined] when absent. *)
Fixpoint lookup (fields : list (string * value)) (k : string) : value :=
  match fields with
  | [] => Undefined
  | (k', v) :: rest => if String.eqb k' k then v else lookup rest k
  end.

Definition prop (o : value) (k : string) : value :=
  match o with
  | Obj fields => lookup fields k
  | _ => Undefined
  end.

(** [Array.prototype.includes] on an array of strings. *)
Definition includes (l : list string) (x : string) : bool :=
  existsb (String.eqb x) l.

(** [xs?.includes(x)] with the result used as a condition: an absent array
    yields [undefined], which is falsy. *)
Definition opt_includes (l : option (list string)) (x : string) : bool :=
  match l with
  | Some xs => includes xs x
  | None => false
  end.

(** [xs || []]. *)
Definition or_empty {A} (l : option (list A)) : list A :=
  match l with
  | Some xs => xs
  | None => []
  end.

(** The result of [parseInt]: [NaN] or an integer.  Doubles are exact on
    integers of magnitude up to 2^53; the theorems stay in that range. *)
Inductive number : Type :=
| NaN
| Int (z : Z).

Definition add1 (n : number) : number :=
  match n with
  | NaN => NaN
  | Int z => Int (z + 1)
  end.

(** Number to string inside a template literal (decimal notation, which
    JavaScript uses below 10^21). *)
Definition toString (n : number) : string :=
  match n with
  | NaN => "NaN"
  | Int z =>
      if z <? 0
      then "-" ++ NilEmpty.string_of_uint (N.to_uint (Z.to_N (- z)))
      else NilEmpty.string_of_uint (N.to_uint (Z.to_N z))
  end.

(** [s.split('.')[0]]: the text before the first dot. *)
Fixpoint before_dot (s : string) : string :=
  match s with
  | EmptyString => EmptyString
  | String c rest =>
      if Ascii.eqb c "."%char then EmptyString else String c (before_dot rest)
  end.

Definition is_space (c : ascii) : bool :=
  let n := nat_of_ascii c in
  orb (Nat.eqb n 32) (andb (Nat.leb 9 n) (Nat.leb n 13)).

Fixpoint trim_start (s : string) : string :=
  match s with
  | String c rest => if is_space c then trim_start rest else s
  | EmptyString => EmptyString
  end.

Definition digit_of (c : ascii) : option (Decimal.uint -> Decimal.uint) :=
  match c with
  | "0"%char => Some Decimal.D0
  | "1"%char => Some Decimal.D1
  | "2"%char => Some Decimal.D2
  | "3"%char => Some Decimal.D3
  | "4"%char => Some Decimal.D4
  | "5"%char => Some Decimal.D5
  | "6"%char => Some Decimal.D6
  | "7"%char => Some Decimal.D7
  | "8"%char => Some Decimal.D8
  | "9"%char => Some Decimal.D9
  | _ => None
  end.

(** The longest prefix of decimal digits, most significant first. *)
Fixpoint digits (s : string) : Decimal.uint :=
  match s with
  | EmptyString => Decimal.Nil
  | String c rest =>
      match digit_of c with
      | Some d => d (digits rest)
      | None => Decimal.Nil
      end
  end.

Definition hex_digit_of (c : ascii) : option N :=
  let n := N_of_ascii c in
  if andb (48 <=? n)%N (n <=? 57)%N then Some (n - 48)%N
  else if andb (97 <=? n)%N (n <=? 102)%N then Some (n - 87)%N
  else if andb (65 <=? n)%N (n <=? 70)%N then Some (n - 55)%N
  else None.

(** The longest prefix of hexadecimal digits and its value. *)
Fixpoint hex_digits (s : string) (seen : bool) (acc : N) : option N :=
  match s with
  | EmptyString => if seen then Some acc else None
  | String c rest =>
      match hex_digit_of c with
      | Some d => hex_digits rest true (16 * acc + d)%N
      | None => if seen then Some acc else None
      end
  end.

Definition magnitude (s : string) : option N :=
  match s with
  | String "0" (String "x" rest) | String "0" (String "X" rest) =>
      hex_digits rest false 0%N
  | _ =>
      match digits s with
      | Decimal.Nil => None
      | d => Some (N.of_uint d)
      end
  end.

(** An optional sign in front of the digits. *)
Definition split_sign (t : string) : bool * string :=
  match t with
  | String "-" rest => (true, rest)
  | String "+" rest => (false, rest)
  | _ => (false, t)
  end.

(** [parseInt(s)] without a radix: leading white space, an optional sign,
    an optional [0x] prefix, then the longest run of digits. *)
Definition parseInt (s : string) : number :=
  let (neg, body) := split_sign (trim_start s) in
  match magnitude body with
  | None => NaN
  | Some m => Int (if neg then - Z.of_N m else Z.of_N m)
  end.

End Js.

(* ===================================================================== *)
(** ** [Map<string, V>]: insertion-ordered, one entry per key *)
(* ===================================================================== *)

Module JsMap.

Definition t (V : Type) : Type := list (string * V).

Definition empty {V} : t V := [].

Fixpoint get {V} (k : string) (m : t V) : option V :=
  match m with
  | [] => None
  | (k', v) :: rest => if String.eqb k' k then Some v else get k rest
  end.

(** [set] replaces the value of an existing key in place and appends a new
    key at the end. *)
Fixpoint set {V} (k : string) (v : V) (m : t V) : t V :=
  match m with
  | [] => [(k, v)]
  | (k', v') :: rest =>
      if String.eqb k' k then (k, v) :: rest else (k', v') :: set k v rest
  end.

(** [Array.from(m.values())]. *)
Definition values {V} (m : t V) : list V := map snd m.

Definition keys {V} (m : t V) : list string := map fst m.

Definition has {V} (k : string) (m : t V) : bool :=
  match get k m with
  | Some _ => true
  | None => false
  end.

End JsMap.

(** [Array.prototype.sort] with the comparator
    [(a, b) => key(b) - key(a)]: a stable sort, largest key first. *)
Fixpoint insert_desc {A} (key : A -> Z) (x : A) (l : list A) : list A :=
  match l with
  | [] => [x]
  | y :: rest =>
      if key x <? key y then y :: insert_desc key x rest else x :: y :: rest
  end.

Fixpoint sort_desc {A} (key : A -> Z) (l : list A) : list A :=
  match l with
  | [] => []
  | x :: rest => insert_desc key x (sort_desc key rest)
  end.

(* ===================================================================== *)
(** ** shared/schema.ts: enums and row types *)
(* ===================================================================== *)

(** [new Date()] values and [Date.now()]: milliseconds. *)
Definition Date := Z.

(** [d?.getTime() || 0]. *)
Definition getTime_or_0 (d : option Date) : Z :=
  match d with
  | Some ms => ms
  | None => 0
  end.

(** [userRoleEnum]. *)
Inductive UserRole := ADMIN | OFFICER | REVIEWER | APPROVER | VIEWER.

(** [documentStatusEnum]. *)
Inductive DocumentStatus :=
| DRAFT | IN_REVIEW | PENDING_SIGNATURE | APPROVED | REJECTED | ARCHIVED.

(** [workflowStateEnum]. *)
Inductive WorkflowState :=
| WF_DRAFT | WF_REVIEW | WF_SIGN | WF_APPROVAL | WF_DONE | WF_REJECTED.

(** [taskTypeEnum] and [taskStateEnum]. *)
Inductive TaskType := T_REVIEW | T_SIGN | T_APPROVE.
Inductive TaskState := OPEN | DONE | CANCELLED.

Definition UserRole_eqb (a b : UserRole) : bool :=
  match a, b with
  | ADMIN, ADMIN | OFFICER, OFFICER | REVIEWER, REVIEWER
  | APPROVER, APPROVER | VIEWER, VIEWER => true
  | _, _ => false
  end.

Definition DocumentStatus_eqb (a b : DocumentStatus) : bool :=
  match a, b with
  | DRAFT, DRAFT | IN_REVIEW, IN_REVIEW
  | PENDING_SIGNATURE, PENDING_SIGNATURE | APPROVED, APPROVED
  | REJECTED, REJECTED | ARCHIVED, ARCHIVED => true
  | _, _ => false
  end.

Definition TaskState_eqb (a b : TaskState) : bool :=
  match a, b with
  | OPEN, OPEN | DONE, DONE | CANCELLED, CANCELLED => true
  | _, _ => false
  end.

(** The enum member a status string names, as the zod enum accepts it. *)
Definition DocumentStatus_of_string (s : string) : option DocumentStatus :=
  if String.eqb s "DRAFT" then Some DRAFT
  else if String.eqb s "IN_REVIEW" then Some IN_REVIEW
  else if String.eqb s "PENDING_SIGNATURE" then Some PENDING_SIGNATURE
  else if String.eqb s "APPROVED" then Some APPROVED
  else if String.eqb s "REJECTED" then Some REJECTED
  else if String.eqb s "ARCHIVED" then Some ARCHIVED
  else None.

(** [status || 'DRAFT']. *)
Definition status_or_draft (status : option DocumentStatus) : DocumentStatus :=
  match status with
  | Some s => s
  | None => DRAFT
  end.

(** [user.roles?.includes(r)]. *)
Definition roles_include (roles : option (list UserRole)) (r : UserRole) : bool :=
  match roles with
  | Some rs => existsb (UserRole_eqb r) rs
  | None => false
  end.

Module User.
Record t := mk {
  id : string;
  email : option string;
  roles : option (list UserRole);
  officeId : option string
}.
End User.

(** [documents.participants]: the column is nullable and its JSON default is
    the empty object, so each list may be missing. *)
Module Participants.
Record t := mk {
  editors : option (list string);
  reviewers : option (list string);
  approvers : option (list string);
  viewers : option (list string)
}.

(** [{ editors: [], reviewers: [], approvers: [], viewers: [] }]. *)
Definition empty : t := mk (Some []) (Some []) (Some []) (Some []).
End Participants.

Module Acl.
Record t := mk { read : list string; write : list string }.
Definition empty : t := mk [] [].
End Acl.

Module Document.
Record t := mk {
  id : string;
  title : string;
  content : option string;
  ownerUid : string;
  departmentId : option string;
  status : option DocumentStatus;
  currentVersionId : option string;
  tags : list string;
  createdAt : option Date;
  updatedAt : option Date;
  dueAt : option Date;
  participants : option Participants.t;
  acl : option Acl.t
}.

(** [Partial<Document>], with the keys the handlers pass to
    [updateDocument]; [None] is an absent key. *)
Record Partial := mkPartial {
  p_title : option string;
  p_content : option string;
  p_status : option DocumentStatus;
  p_currentVersionId : option string;
  p_updatedAt : option Date
}.
End Document.

Module DocumentVersion.
Record t := mk {
  id : string;
  docId : string;
  versionNumber : string;
  storagePath : string;
  sha256 : option string;
  createdBy : string;
  createdAt : option Date;
  changeSummary : option string;
  fileName : string;
  fileSize : option Z;
  mimeType : option string
}.
End DocumentVersion.

(** One element of [workflows.history]. *)
Module HistoryEntry.
Record t := mk {
  at_ : Z;
  byUid : string;
  action : string;
  meta : Js.value
}.
End HistoryEntry.

Module Workflow.
Record t := mk {
  id : string;
  docId : string;
  state : option WorkflowState;
  assignees : Js.value;
  history : option (list HistoryEntry.t);
  createdAt : option Date;
  updatedAt : option Date
}.
End Workflow.

Module Task.
Record t := mk {
  id : string;
  type : TaskType;
  docId : string;
  workflowId : string;
  state : option TaskState;
  assignedTo : option (list string);
  createdAt : option Date;
  doneAt : option Date;
  notes : Js.value
}.
End Task.

Module AuditLog.
Record t := mk {
  id : string;
  actorUid : string;
  action : string;
  target_type : string;
  target_id : string;
  timestamp : option Date;
  ip : option string;
  userAgent : option string;
  metadata : Js.value
}.
End AuditLog.

Module OfficeLogin.
Record t := mk {
  id : string;
  officeId : string;
  userId : option string;
  loginTime : option Date;
  ipAddress : option string;
  sessionToken : string;
  isActive : option bool;
  expiresAt : Date
}.
End OfficeLogin.

(* ===================================================================== *)
(** ** server/storage.ts: the storage object *)
(* ===================================================================== *)

(** The private maps of [class MemStorage] that the document, workflow, task,
    audit and office-session methods use. *)
Record MemStorage := mkMem {
  users : JsMap.t User.t;
  documents : JsMap.t Document.t;
  documentVersions : JsMap.t DocumentVersion.t;
  workflows : JsMap.t Workflow.t;
  tasks : JsMap.t Task.t;
  auditLogs : list AuditLog.t;
  officeLogins : JsMap.t OfficeLogin.t
}.

Definition with_documents (m : MemStorage) (x : JsMap.t Document.t) :=
  mkMem (users m) x (documentVersions m) (workflows m) (tasks m)
        (auditLogs m) (officeLogins m).

Definition with_documentVersions (m : MemStorage) (x : JsMap.t DocumentVersion.t) :=
  mkMem (users m) (documents m) x (workflows m) (tasks m)
        (auditLogs m) (officeLogins m).

Definition with_workflows (m : MemStorage) (x : JsMap.t Workflow.t) :=
  mkMem (users m) (documents m) (documentVersions m) x (tasks m)
        (auditLogs m) (officeLogins m).

Definition with_tasks (m : MemStorage) (x : JsMap.t Task.t) :=
  mkMem (users m) (documents m) (documentVersions m) (workflows m) x
        (auditLogs m) (officeLogins m).

Definition with_auditLogs (m : MemStorage) (x : list AuditLog.t) :=
  mkMem (users m) (documents m) (documentVersions m) (workflows m) (tasks m)
        x (officeLogins m).

Definition with_officeLogins (m : MemStorage) (x : JsMap.t OfficeLogin.t) :=
  mkMem (users m) (documents m) (documentVersions m) (workflows m) (tasks m)
        (auditLogs m) x.

(** *** The monad of a request *)

(** What a request reads from outside the storage: the k-th value of the
    system clock and the k-th result of [generateId()]. *)
Record Env := mkEnv {
  clock : nat -> Date;
  random_id : nat -> string
}.

(** The storage, with the number of clock reads and of ids drawn so far. *)
Record Heap := mkHeap {
  mem : MemStorage;
  ticks : nat;
  draws : nat
}.

(** Exceptions a handler can meet: a failed zod [parse], a failed file
    operation, a call of a method that the storage object does not have. *)
Inductive Exn := ZodError | IOError | TypeError.

Inductive Result (A : Type) :=
| Ok (a : A)
| Throw (e : Exn).
Arguments Ok {A} a.
Arguments Throw {A} e.

Definition M (A : Type) : Type := Env -> Heap -> Result A * Heap.

Definition ret {A} (a : A) : M A := fun _ h => (Ok a, h).

Definition bind {A B} (c : M A) (k : A -> M B) : M B :=
  fun env h =>
    match c env h with
    | (Ok a, h') => k a env h'
    | (Throw e, h') => (Throw e, h')
    end.

Declare Scope js_scope.
Delimit Scope js_scope with js.
Notation "x <- c ;; k" := (bind c (fun x => k))
  (at level 61, c at next level, right associativity) : js_scope.
Notation "c ;;; k" := (bind c (fun _ => k))
  (at level 61, right associativity) : js_scope.
Local Open Scope js_scope.

Definition throw {A} (e : Exn) : M A := fun _ h => (Throw e, h).

Definition read : M MemStorage := fun _ h => (Ok (mem h), h).

Definition modify (f : MemStorage -> MemStorage) : M unit :=
  fun _ h => (Ok tt, mkHeap (f (mem h)) (ticks h) (draws h)).

(** [new Date()] and [Date.now()]. *)
Definition now : M Date :=
  fun env h => (Ok (clock env (ticks h)), mkHeap (mem h) (S (ticks h)) (draws h)).

(** [MemStorage.generateId]. *)
Definition generateId : M string :=
  fun env h => (Ok (random_id env (draws h)), mkHeap (mem h) (ticks h) (S (draws h))).

(** [for (const x of xs) { await body(x) }]. *)
Fixpoint for_of {A} (xs : list A) (body : A -> M unit) : M unit :=
  match xs with
  | [] => ret tt
  | x :: rest => body x ;;; for_of rest body
  end.

(** [s || null] on an optional string and on an optional number. *)
Definition str_or_null (s : option string) : option string :=
  match s with
  | Some x => if String.eqb x "" then None else Some x
  | None => None
  end.

Definition num_or_null (n : option Z) : option Z :=
  match n with
  | Some x => if x =? 0 then None else Some x
  | None => None
  end.

(** *** Users and documents *)

Definition getUser (id : string) : M (option User.t) :=
  m <- read ;; ret (JsMap.get id (users m)).

(** [InsertDocument]: the output of [insertDocumentSchema.parse]. *)
Record InsertDocument := mkInsertDocument {
  ins_title : string;
  ins_content : option string;
  ins_ownerUid : string;
  ins_departmentId : option string;
  ins_status : option DocumentStatus;
  ins_tags : option (list string);
  ins_dueAt : option Date;
  ins_participants : option Participants.t;
  ins_acl : option Acl.t
}.

Definition createDocument (document : InsertDocument) : M Document.t :=
  id <- generateId ;;
  created <- now ;;
  updated <- now ;;
  let doc :=
    Document.mk id
      (ins_title document)
      (Some match str_or_null (ins_content document) with
            | Some c => c
            | None => ""
            end)
      (ins_ownerUid document)
      (str_or_null (ins_departmentId document))
      (Some (status_or_draft (ins_status document)))
      None
      (Js.or_empty (ins_tags document))
      (Some created)
      (Some updated)
      (ins_dueAt document)
      (Some match ins_participants document with
            | Some p => p
            | None => Participants.empty
            end)
      (Some match ins_acl document with
            | Some a => a
            | None => Acl.empty
            end) in
  modify (fun m => with_documents m (JsMap.set id doc (documents m))) ;;;
  ret doc.

Definition getDocument (id : string) : M (option Document.t) :=
  m <- read ;; ret (JsMap.get id (documents m)).

(** [storage.updateDocument(id, updates)].  The storage object is
    [new MemStorage()] (the export of storage.ts outside production), and
    [class MemStorage] declares no [updateDocument]: the property is
    [undefined], and the call, once its arguments are evaluated, throws a
    [TypeError] without reading or writing any map. *)
Definition updateDocument (id : string) (updates : Document.Partial)
  : M (option Document.t) :=
  throw TypeError.

(** *** Document versions *)

Record InsertDocumentVersion := mkInsertDocumentVersion {
  iv_docId : string;
  iv_versionNumber : string;
  iv_storagePath : string;
  iv_sha256 : option string;
  iv_createdBy : string;
  iv_changeSummary : option string;
  iv_fileName : string;
  iv_fileSize : option Z;
  iv_mimeType : option string
}.

Definition createDocumentVersion (version : InsertDocumentVersion)
  : M DocumentVersion.t :=
  id <- generateId ;;
  created <- now ;;
  let ver :=
    DocumentVersion.mk id (iv_docId version) (iv_versionNumber version)
      (iv_storagePath version) (str_or_null (iv_sha256 version))
      (iv_createdBy version) (Some created)
      (str_or_null (iv_changeSummary version)) (iv_fileName version)
      (num_or_null (iv_fileSize version)) (str_or_null (iv_mimeType version)) in
  modify (fun m => with_documentVersions m (JsMap.set id ver (documentVersions m))) ;;;
  ret ver.

Definition versions_of (docId : string) (m : MemStorage) : list DocumentVersion.t :=
  sort_desc (fun v => getTime_or_0 (DocumentVersion.createdAt v))
    (filter (fun v => String.eqb (DocumentVersion.docId v) docId)
            (JsMap.values (documentVersions m))).

Definition getDocumentVersions (docId : string) : M (list DocumentVersion.t) :=
  m <- read ;; ret (versions_of docId m).

Definition getLatestVersion (docId : string) : M (option DocumentVersion.t) :=
  versions <- getDocumentVersions docId ;; ret (hd_error versions).

(** *** Workflows *)

(** [{ review: [], sign: [], approve: [] }]. *)
Definition empty_assignees : Js.value :=
  Js.Obj [("review", Js.Arr []); ("sign", Js.Arr []); ("approve", Js.Arr [])].

Definition createWorkflow (docId : string) (assignees : Js.value) : M Workflow.t :=
  id <- generateId ;;
  created <- now ;;
  updated <- now ;;
  let workflow :=
    Workflow.mk id docId (Some WF_DRAFT) (Js.or assignees empty_assignees)
      (Some []) (Some created) (Some updated) in
  modify (fun m => with_workflows m (JsMap.set id workflow (workflows m))) ;;;
  ret workflow.

(** [Array.from(this.workflows.values()).find(w => w.docId === docId)]. *)
Definition getWorkflow (docId : string) : M (option Workflow.t) :=
  m <- read ;;
  ret (find (fun w => String.eqb (Workflow.docId w) docId)
            (JsMap.values (workflows m))).

(** [updateWorkflow(id, { state, history })]: the two keys the handlers
    pass. *)
Definition updateWorkflow (id : string) (state : WorkflowState)
  (history : list HistoryEntry.t) : M (option Workflow.t) :=
  m <- read ;;
  match JsMap.get id (workflows m) with
  | None => ret None
  | Some workflow =>
      updated <- now ;;
      let updatedWorkflow :=
        Workflow.mk (Workflow.id workflow) (Workflow.docId workflow)
          (Some state) (Workflow.assignees workflow) (Some history)
          (Workflow.createdAt workflow) (Some updated) in
      modify (fun m => with_workflows m (JsMap.set id updatedWorkflow (workflows m))) ;;;
      ret (Some updatedWorkflow)
  end.

(** *** Tasks *)

Record InsertTask := mkInsertTask {
  it_type : TaskType;
  it_docId : string;
  it_workflowId : string;
  it_state : option TaskState;
  it_assignedTo : option (list string);
  it_notes : option string
}.

Definition createTask (task : InsertTask) : M Task.t :=
  id <- generateId ;;
  created <- now ;;
  let t :=
    Task.mk id (it_type task) (it_docId task) (it_workflowId task)
      (Some match it_state task with
            | Some s => s
            | None => OPEN
            end)
      (Some (Js.or_empty (it_assignedTo task)))
      (Some created)
      None
      match str_or_null (it_notes task) with
      | Some n => Js.Str n
      | None => Js.Null
      end in
  modify (fun m => with_tasks m (JsMap.set id t (tasks m))) ;;;
  ret t.

(** The filters of [getTasks]; a filter that is absent or falsy (the empty
    string, zero) is skipped. *)
Record TaskFilters := mkTaskFilters {
  f_assignedTo : option string;
  f_state : option TaskState;
  f_type : option TaskType;
  f_limit : option nat;
  f_offset : option nat
}.

Definition TaskType_eqb (a b : TaskType) : bool :=
  match a, b with
  | T_REVIEW, T_REVIEW | T_SIGN, T_SIGN | T_APPROVE, T_APPROVE => true
  | _, _ => false
  end.

Definition task_has_state (s : TaskState) (t : Task.t) : bool :=
  match Task.state t with
  | Some s' => TaskState_eqb s' s
  | None => false
  end.

Definition tasks_matching (filters : TaskFilters) (m : MemStorage) : list Task.t :=
  let ts := JsMap.values (tasks m) in
  let ts :=
    match str_or_null (f_assignedTo filters) with
    | Some uid => filter (fun t => Js.opt_includes (Task.assignedTo t) uid) ts
    | None => ts
    end in
  let ts :=
    match f_state filters with
    | Some s => filter (task_has_state s) ts
    | None => ts
    end in
  let ts :=
    match f_type filters with
    | Some ty => filter (fun t => TaskType_eqb (Task.type t) ty) ts
    | None => ts
    end in
  let ts := sort_desc (fun t => getTime_or_0 (Task.createdAt t)) ts in
  let ts :=
    match f_offset filters with
    | Some (S n) => skipn (S n) ts
    | _ => ts
    end in
  match f_limit filters with
  | Some (S n) => firstn (S n) ts
  | _ => ts
  end.

Definition getTasks (filters : TaskFilters) : M (list Task.t) :=
  m <- read ;; ret (tasks_matching filters m).

(** [updateTask(id, { state, doneAt, notes })]: the three keys the approve
    handler passes. *)
Definition updateTask (id : string) (state : TaskState) (doneAt : Date)
  (notes : Js.value) : M (option Task.t) :=
  m <- read ;;
  match JsMap.get id (tasks m) with
  | None => ret None
  | Some task =>
      let updatedTask :=
        Task.mk (Task.id task) (Task.type task) (Task.docId task)
          (Task.workflowId task) (Some state) (Task.assignedTo task)
          (Task.createdAt task) (Some doneAt) notes in
      modify (fun m => with_tasks m (JsMap.set id updatedTask (tasks m))) ;;;
      ret (Some updatedTask)
  end.

(** *** Audit log *)

Record InsertAuditLog := mkInsertAuditLog {
  al_actorUid : string;
  al_action : string;
  al_target_type : string;
  al_target_id : string;
  al_ip : option string;
  al_userAgent : option string;
  al_metadata : Js.value
}.

Definition createAuditLog (log : InsertAuditLog) : M AuditLog.t :=
  id <- generateId ;;
  stamp <- now ;;
  let auditLog :=
    AuditLog.mk id (al_actorUid log) (al_action log) (al_target_type log)
      (al_target_id log) (Some stamp) (str_or_null (al_ip log))
      (str_or_null (al_userAgent log)) (Js.or (al_metadata log) Js.Null) in
  modify (fun m => with_auditLogs m (auditLogs m ++ [auditLog])) ;;;
  ret auditLog.

(** *** Office sessions *)

Record InsertOfficeLogin := mkInsertOfficeLogin {
  il_officeId : string;
  il_userId : option string;
  il_ipAddress : option string;
  il_sessionToken : string
}.

Definition day_ms : Z := 24 * 60 * 60 * 1000.

Definition createOfficeLogin (login : InsertOfficeLogin) : M OfficeLogin.t :=
  id <- generateId ;;
  sessionToken <-
    (if String.eqb (il_sessionToken login) "" then generateId
     else ret (il_sessionToken login)) ;;
  t <- now ;;
  loginTime <- now ;;
  let newLogin :=
    OfficeLogin.mk id (il_officeId login) (str_or_null (il_userId login))
      (Some loginTime) (str_or_null (il_ipAddress login)) sessionToken
      (Some true) (t + day_ms) in
  modify (fun m => with_officeLogins m (JsMap.set sessionToken newLogin (officeLogins m))) ;;;
  ret newLogin.

(** [!login.isActive]. *)
Definition inactive (login : OfficeLogin.t) : bool :=
  match OfficeLogin.isActive login with
  | Some true => false
  | _ => true
  end.

(** [if (!login || !login.isActive || new Date() > login.expiresAt)
       return undefined; return login;]
    The clock is read only when the first two tests let it. *)
Definition validateOfficeSession (sessionToken : string) : M (option OfficeLogin.t) :=
  m <- read ;;
  match JsMap.get sessionToken (officeLogins m) with
  | None => ret None
  | Some login =>
      if inactive login then ret None
      else
        t <- now ;;
        if OfficeLogin.expiresAt login <? t then ret None else ret (Some login)
  end.

Definition invalidateOfficeSession (sessionToken : string) : M unit :=
  m <- read ;;
  match JsMap.get sessionToken (officeLogins m) with
  | None => ret tt
  | Some login =>
      let login' :=
        OfficeLogin.mk (OfficeLogin.id login) (OfficeLogin.officeId login)
          (OfficeLogin.userId login) (OfficeLogin.loginTime login)
          (OfficeLogin.ipAddress login) (OfficeLogin.sessionToken login)
          (Some false) (OfficeLogin.expiresAt login) in
      modify (fun m => with_officeLogins m (JsMap.set sessionToken login' (officeLogins m)))
  end.

(* ===================================================================== *)
(** ** server/routes.ts: permission helpers *)
(* ===================================================================== *)

Definition is_admin (user : User.t) : bool := roles_include (User.roles user) ADMIN.

(** [participants.<list>] after [const participants = document.participants || {}]. *)
Definition participant_list (document : Document.t)
  (which : Participants.t -> option (list string)) : option (list string) :=
  match Document.participants document with
  | Some p => which p
  | None => None
  end.

Definition canAccessDocument (document : Document.t) (user : option User.t) : bool :=
  match user with
  | None => false
  | Some user =>
      if is_admin user then true
      else if String.eqb (Document.ownerUid document) (User.id user) then true
      else
        let allParticipants :=
          (Js.or_empty (participant_list document Participants.editors)
           ++ Js.or_empty (participant_list document Participants.reviewers)
           ++ Js.or_empty (participant_list document Participants.approvers)
           ++ Js.or_empty (participant_list document Participants.viewers))%list in
        Js.includes allParticipants (User.id user)
  end.

Definition canEditDocument (document : Document.t) (user : option User.t) : bool :=
  match user with
  | None => false
  | Some user =>
      if is_admin user then true
      else if String.eqb (Document.ownerUid document) (User.id user) then true
      else Js.opt_includes (participant_list document Participants.editors) (User.id user)
  end.

Definition canReviewDocument (document : Document.t) (user : option User.t) : bool :=
  match user with
  | None => false
  | Some user =>
      if is_admin user then true
      else Js.opt_includes (participant_list document Participants.reviewers) (User.id user)
  end.

Definition canApproveDocument (document : Document.t) (user : option User.t) : bool :=
  match user with
  | None => false
  | Some user =>
      if is_admin user then true
      else if roles_include (User.roles user) APPROVER then true
      else Js.opt_includes (participant_list document Participants.approvers) (User.id user)
  end.

(* ===================================================================== *)
(** ** server/routes.ts: requests, responses and handlers *)
(* ===================================================================== *)

(** The body of [res.json(...)]. *)
Inductive Json :=
| Message (message : string)
| ValidationErrors
| DocumentJson (document : option Document.t)
| VersionJson (version : DocumentVersion.t).

Record Response := mkResponse {
  res_status : nat;
  res_json : Json
}.

(** What an authenticated request carries besides its parameters:
    [req.user.claims.sub], [req.ip], [req.get('User-Agent')]. *)
Record Req := mkReq {
  req_userId : string;
  req_ip : option string;
  req_userAgent : option string
}.

(** [try { body } catch (error) { on_error }]. *)
Definition try_catch (body : M Response) (on_error : Exn -> Response) : M Response :=
  fun env h =>
    match body env h with
    | (Ok r, h') => (Ok r, h')
    | (Throw e, h') => (Ok (on_error e), h')
    end.

(** One request against a storage: the response and the storage after it. *)
Definition serve (handler : M Response) (env : Env) (st : MemStorage)
  : Response * MemStorage :=
  match handler env (mkHeap st 0 0) with
  | (Ok r, h) => (r, mem h)
  | (Throw _, h) => (mkResponse 500 (Message "Internal Server Error"), mem h)
  end.

Definition audit (req : Req) (action docId : string) (metadata : Js.value)
  : InsertAuditLog :=
  mkInsertAuditLog (req_userId req) action "document" docId
    (req_ip req) (req_userAgent req) metadata.

(** [document.status === s]. *)
Definition status_is (document : Document.t) (s : DocumentStatus) : bool :=
  match Document.status document with
  | Some s' => DocumentStatus_eqb s' s
  | None => false
  end.

(** *** POST /api/documents *)

(** The keys of the request body that the insert schema keeps.  [title],
    [content] and [status] arrive as any JSON value; the others are taken
    already of their declared type.  [assignees] is read from the raw body. *)
Record CreateBody := mkCreateBody {
  cb_title : Js.value;
  cb_content : Js.value;
  cb_status : Js.value;
  cb_departmentId : option string;
  cb_tags : option (list string);
  cb_participants : option Participants.t;
  cb_acl : option Acl.t;
  cb_assignees : Js.value
}.

(** A value for the optional, nullable [status] key of the insert schema:
    absent, [null], or the name of a member of [documentStatusEnum]. *)
Definition parse_status (status : Js.value) : option (option DocumentStatus) :=
  match status with
  | Js.Undefined | Js.Null => Some None
  | Js.Str s =>
      match DocumentStatus_of_string s with
      | Some st => Some (Some st)
      | None => None
      end
  | _ => None
  end.

(** [insertDocumentSchema.parse({ ...req.body, ownerUid: userId,
      content: req.body.content || "" })].
    The schema is derived from the [documents] table without [id],
    [createdAt], [updatedAt] and [currentVersionId]: [title] is a required
    string, [content] a string, [status] optional and nullable. *)
Definition parse_insertDocument (body : CreateBody) (userId : string)
  : M InsertDocument :=
  match cb_title body, Js.or (cb_content body) (Js.Str ""),
        parse_status (cb_status body) with
  | Js.Str title, Js.Str content, Some status =>
      ret (mkInsertDocument title (Some content) userId (cb_departmentId body)
             status (cb_tags body) None (cb_participants body) (cb_acl body))
  | _, _, _ => throw ZodError
  end.

Definition post_documents (req : Req) (body : CreateBody) : M Response :=
  try_catch
    (validatedData <- parse_insertDocument body (req_userId req) ;;
     document <- createDocument validatedData ;;
     createWorkflow (Document.id document) (cb_assignees body) ;;;
     createAuditLog (audit req "DOCUMENT_CREATED" (Document.id document) Js.Undefined) ;;;
     ret (mkResponse 201 (DocumentJson (Some document))))
    (fun error =>
       match error with
       | ZodError => mkResponse 400 ValidationErrors
       | _ => mkResponse 500 (Message "Failed to create document")
       end).

(** *** PATCH /api/documents/:id *)

Definition patch_documents (req : Req) (id : string)
  (title content : option string) : M Response :=
  try_catch
    (document <- getDocument id ;;
     match document with
     | None => ret (mkResponse 404 (Message "Document not found"))
     | Some document =>
         if negb (String.eqb (Document.ownerUid document) (req_userId req))
            && negb (Js.opt_includes
                       (participant_list document Participants.editors)
                       (req_userId req))
         then ret (mkResponse 403 (Message "Access denied"))
         else if negb (status_is document DRAFT || status_is document REJECTED)
         then ret (mkResponse 400 (Message "Document cannot be edited in current state"))
         else
           t <- now ;;
           updatedDocument <-
             updateDocument id (Document.mkPartial title content None None (Some t)) ;;
           ret (mkResponse 200 (DocumentJson updatedDocument))
     end)
    (fun _ => mkResponse 500 (Message "Failed to update document")).

(** *** POST /api/documents/:id/versions *)

(** [req.file] as multer leaves it. *)
Record UploadedFile := mkUploadedFile {
  originalname : string;
  size : Z;
  mimetype : string
}.

(** The file-system calls [fs.mkdir] and [fs.rename] of the handler: their
    outcome is given with the request. *)
Definition move_file (fs_ok : bool) : M unit :=
  if fs_ok then ret tt else throw IOError.

(** [latestVersion ? `${parseInt(latestVersion.versionNumber.split('.')[0]) + 1}.0`
                   : '1.0'] with [latestVersion = versions[0]]. *)
Definition newVersionNumber (versions : list DocumentVersion.t) : string :=
  match versions with
  | latestVersion :: _ =>
      Js.toString
        (Js.add1 (Js.parseInt (Js.before_dot (DocumentVersion.versionNumber latestVersion))))
      ++ ".0"
  | [] => "1.0"
  end.

Definition post_versions (req : Req) (docId : string)
  (file : option UploadedFile) (changeSummary : option string) (fs_ok : bool)
  : M Response :=
  try_catch
    (match file with
     | None => ret (mkResponse 400 (Message "No file uploaded"))
     | Some file =>
         document <- getDocument docId ;;
         match document with
         | None => ret (mkResponse 404 (Message "Document not found"))
         | Some document =>
             user <- getUser (req_userId req) ;;
             if negb (canEditDocument document user)
             then ret (mkResponse 403 (Message "Access denied"))
             else
               stamp <- now ;;
               let fileName := Js.toString (Js.Int stamp) ++ "-" ++ originalname file in
               let permanentPath := "storage/documents/" ++ docId ++ "/" ++ fileName in
               move_file fs_ok ;;;
               versions <- getDocumentVersions docId ;;
               let number := newVersionNumber versions in
               version <-
                 createDocumentVersion
                   (mkInsertDocumentVersion docId number permanentPath None
                      (req_userId req)
                      (Some match str_or_null changeSummary with
                            | Some c => c
                            | None => "New version uploaded"
                            end)
                      (originalname file) (Some (size file)) (Some (mimetype file))) ;;
               updateDocument docId
                 (Document.mkPartial None None None
                    (Some (DocumentVersion.id version)) None) ;;;
               createAuditLog
                 (audit req "VERSION_UPLOADED" docId
                    (Js.Obj [("versionId", Js.Str (DocumentVersion.id version));
                             ("versionNumber", Js.Str number)])) ;;;
               ret (mkResponse 201 (VersionJson version))
         end
     end)
    (fun _ => mkResponse 500 (Message "Failed to upload version")).

(** *** POST /api/documents/:id/submit *)

(** [req.body] is the JSON object that the body parser leaves; it is given
    by its fields. *)
Definition Body := list (string * Js.value).

(** [history.push({ at: Date.now(), byUid, action, meta })] on
    [workflow.history || []].  The push is in place on the array of the
    stored workflow; the [updateWorkflow] that follows stores the same array
    in a copy of the workflow under the workflow's id.  On a storage that
    keeps every workflow under its own id ([well_keyed] below) the copy
    replaces the object that was pushed to, and that one net write is what
    is kept here. *)
Definition pushed (workflow : Workflow.t) (entry : HistoryEntry.t)
  : list HistoryEntry.t :=
  (Js.or_empty (Workflow.history workflow) ++ [entry])%list.

Definition record_transition (docId byUid action : string) (meta : Js.value)
  (state : WorkflowState) : M (option Workflow.t) :=
  workflow <- getWorkflow docId ;;
  match workflow with
  | Some workflow =>
      t <- now ;;
      updateWorkflow (Workflow.id workflow) state
        (pushed workflow (HistoryEntry.mk t byUid action meta)) ;;;
      ret (Some workflow)
  | None => ret None
  end.

Definition review_task (docId workflowId reviewerId : string) : InsertTask :=
  mkInsertTask T_REVIEW docId workflowId None (Some [reviewerId]) None.

(** The storage calls of a submit that has passed the guards. *)
Definition submit_effects (req : Req) (docId : string) (document : Document.t)
  : M Response :=
  updateDocument docId
    (Document.mkPartial None None (Some IN_REVIEW) None None) ;;;
  workflow <-
    record_transition docId (req_userId req) "SUBMIT_FOR_REVIEW"
      Js.Undefined WF_REVIEW ;;
  let workflowId :=
    match workflow with
    | Some w => Workflow.id w
    | None => ""
    end in
  for_of (Js.or_empty (participant_list document Participants.reviewers))
    (fun reviewerId =>
       createTask (review_task docId workflowId reviewerId) ;;; ret tt) ;;;
  createAuditLog (audit req "SUBMIT_FOR_REVIEW" docId Js.Undefined) ;;;
  ret (mkResponse 200 (Message "Document submitted for review")).

Definition post_submit (req : Req) (docId : string) : M Response :=
  try_catch
    (document <- getDocument docId ;;
     match document with
     | None => ret (mkResponse 404 (Message "Document not found"))
     | Some document =>
         if negb (status_is document DRAFT)
         then ret (mkResponse 400 (Message "Document must be in DRAFT status"))
         else
           user <- getUser (req_userId req) ;;
           if negb (canEditDocument document user)
           then ret (mkResponse 403 (Message "Access denied"))
           else submit_effects req docId document
     end)
    (fun _ => mkResponse 500 (Message "Failed to submit document")).

(** *** POST /api/documents/:id/approve *)

(** The storage calls of an approve that has passed the guards. *)
Definition approve_effects (req : Req) (docId : string) (body : Body)
  : M Response :=
  updateDocument docId
    (Document.mkPartial None None (Some APPROVED) None None) ;;;
  record_transition docId (req_userId req) "APPROVE" (Js.Obj body) WF_DONE ;;;
  userTasks <-
    getTasks (mkTaskFilters (Some (req_userId req)) (Some OPEN) None None None) ;;
  for_of (filter (fun t => String.eqb (Task.docId t) docId) userTasks)
    (fun task =>
       doneAt <- now ;;
       updateTask (Task.id task) DONE doneAt
         (Js.or (Js.lookup body "notes") (Js.Str "Approved")) ;;;
       ret tt) ;;;
  createAuditLog (audit req "APPROVE_DOCUMENT" docId (Js.Obj body)) ;;;
  ret (mkResponse 200 (Message "Document approved")).

Definition post_approve (req : Req) (docId : string) (body : Body) : M Response :=
  try_catch
    (document <- getDocument docId ;;
     match document with
     | None => ret (mkResponse 404 (Message "Document not found"))
     | Some document =>
         user <- getUser (req_userId req) ;;
         if negb (canApproveDocument document user)
         then ret (mkResponse 403 (Message "Access denied"))
         else approve_effects req docId body
     end)
    (fun _ => mkResponse 500 (Message "Failed to approve document")).

(** *** POST /api/documents/:id/reject *)

(** The storage calls of a reject that has passed the guards. *)
Definition reject_effects (req : Req) (docId : string) (reason : Js.value)
  : M Response :=
  updateDocument docId
    (Document.mkPartial None None (Some REJECTED) None None) ;;;
  record_transition docId (req_userId req) "REJECT"
    (Js.Obj [("reason", reason)]) WF_REJECTED ;;;
  createAuditLog
    (audit req "REJECT_DOCUMENT" docId (Js.Obj [("reason", reason)])) ;;;
  ret (mkResponse 200 (Message "Document rejected")).

Definition post_reject (req : Req) (docId : string) (body : Body) : M Response :=
  try_catch
    (let reason := Js.lookup body "reason" in
     if negb (Js.truthy reason)
     then ret (mkResponse 400 (Message "Rejection reason is required"))
     else
       document <- getDocument docId ;;
       match document with
       | None => ret (mkResponse 404 (Message "Document not found"))
       | Some document =>
           user <- getUser (req_userId req) ;;
           if negb (canApproveDocument document user)
              && negb (canReviewDocument document user)
           then ret (mkResponse 403 (Message "Access denied"))
           else reject_effects req docId reason
       end)
    (fun _ => mkResponse 500 (Message "Failed to reject document")).

(** *** Office session middleware *)

(** The outcome of the middleware: a response of its own, or [next()] with
    [req.officeSession] set. *)
Inductive Checked :=
| Refused (response : Response)
| Next (officeSession : OfficeLogin.t).

(** [req.headers['x-office-session'] || req.query.session]. *)
Definition session_token (header query : option string) : option string :=
  match str_or_null header with
  | Some t => Some t
  | None => query
  end.

Definition validateOfficeSession_mw (header query : option string) : M Checked :=
  match str_or_null (session_token header query) with
  | None => ret (Refused (mkResponse 401 (Message "Office session required")))
  | Some sessionToken =>
      session <- validateOfficeSession sessionToken ;;
      match session with
      | None => ret (Refused (mkResponse 401 (Message "Invalid or expired office session")))
      | Some session => ret (Next session)
      end
  end.

(** The middleware against a storage at a given clock. *)
Definition check_session (header query : option string) (env : Env)
  (st : MemStorage) : option Checked :=
  match validateOfficeSession_mw header query env (mkHeap st 0 0) with
  | (Ok c, _) => Some c
  | (Throw _, _) => None
  end.

(* ===================================================================== *)
(** ** Sample data used by the examples *)
(* ===================================================================== *)

Definition env0 : Env :=
  mkEnv (fun k => 1000 + Z.of_nat k)
        (fun k => "id" ++ NilEmpty.string_of_uint (Nat.to_uint k)).

Definition alice : User.t := User.mk "alice" None (Some [OFFICER]) None.
Definition bob : User.t := User.mk "bob" None (Some [REVIEWER]) None.
Definition carol : User.t := User.mk "carol" None (Some []) None.
Definition root : User.t := User.mk "root" None (Some [ADMIN]) None.

Definition sample_users : JsMap.t User.t :=
  [("alice", alice); ("bob", bob); ("carol", carol); ("root", root)].

(** A document of alice's with reviewer bob and approver carol. *)
Definition report (status : DocumentStatus) : Document.t :=
  Document.mk "d1" "Q3 Report" (Some "") "alice" None (Some status) None []
    (Some 10) (Some 10) None
    (Some (Participants.mk (Some []) (Some ["bob"]) (Some ["carol"]) (Some [])))
    (Some Acl.empty).

Definition report_workflow (state : WorkflowState)
  (history : list HistoryEntry.t) : Workflow.t :=
  Workflow.mk "w1" "d1" (Some state) empty_assignees (Some history)
    (Some 10) (Some 10).

Definition store_with (status : DocumentStatus) (state : WorkflowState)
  (history : list HistoryEntry.t) : MemStorage :=
  mkMem sample_users [("d1", report status)] []
        [("w1", report_workflow state history)] [] [] [].

Definition as_user (uid : string) : Req := mkReq uid None None.

(* ===================================================================== *)
(** ** Vocabulary of the properties *)
(* ===================================================================== *)

(** A computation run against a storage, from a fresh request. *)
Definition exec {A} (c : M A) (env : Env) (st : MemStorage)
  : Result A * MemStorage :=
  let (r, h) := c env (mkHeap st 0 0) in (r, mem h).

(** The four participant lists of a document. *)
Inductive ParticipantList := Editors | Reviewers | Approvers | Viewers.

(** [list.push(uid)], on a list that is created when it is missing. *)
Definition push_uid (l : option (list string)) (uid : string)
  : option (list string) :=
  Some (Js.or_empty l ++ [uid])%list.

Definition add_to (which : ParticipantList) (uid : string)
  (p : Participants.t) : Participants.t :=
  match which with
  | Editors =>
      Participants.mk (push_uid (Participants.editors p) uid)
        (Participants.reviewers p) (Participants.approvers p)
        (Participants.viewers p)
  | Reviewers =>
      Participants.mk (Participants.editors p)
        (push_uid (Participants.reviewers p) uid) (Participants.approvers p)
        (Participants.viewers p)
  | Approvers =>
      Participants.mk (Participants.editors p) (Participants.reviewers p)
        (push_uid (Participants.approvers p) uid) (Participants.viewers p)
  | Viewers =>
      Participants.mk (Participants.editors p) (Participants.reviewers p)
        (Participants.approvers p) (push_uid (Participants.viewers p) uid)
  end.

(** The document after a uid is added to one of its participant lists. *)
Definition add_participant (which : ParticipantList) (uid : string)
  (document : Document.t) : Document.t :=
  Document.mk (Document.id document) (Document.title document)
    (Document.content document) (Document.ownerUid document)
    (Document.departmentId document) (Document.status document)
    (Document.currentVersionId document) (Document.tags document)
    (Document.createdAt document) (Document.updatedAt document)
    (Document.dueAt document)
    (Some (add_to which uid
             match Document.participants document with
             | Some p => p
             | None => Participants.mk None None None None
             end))
    (Document.acl document).

(** A map as [MemStorage] keeps it: one entry per key, each value under its
    own id. *)
Fixpoint well_keyed {V} (id : V -> string) (m : JsMap.t V) : bool :=
  match m with
  | [] => true
  | (k, v) :: rest =>
      String.eqb k (id v) && negb (JsMap.has k rest) && well_keyed id rest
  end.

(** The history entry of a submit. *)
Definition submit_entry (t : Z) (uid : string) : HistoryEntry.t :=
  HistoryEntry.mk t uid "SUBMIT_FOR_REVIEW" Js.Undefined.

(** A later request: a later clock and other ids. *)
Definition env1 : Env :=
  mkEnv (fun k => 2000 + Z.of_nat k)
        (fun k => "x" ++ NilEmpty.string_of_uint (Nat.to_uint k)).

Definition upload : UploadedFile := mkUploadedFile "q3.pdf" 2048 "application/pdf".



(** The version that the upload handler hands to [createDocumentVersion],
    as the storage keeps it: drawn under the first id of the request, at its
    second clock read (the first names the file). *)
Definition uploaded_version (env : Env) (st : MemStorage) (req : Req)
  (docId : string) (file : UploadedFile) (changeSummary : option string)
  : DocumentVersion.t :=
  DocumentVersion.mk (random_id env 0) docId
    (newVersionNumber (versions_of docId st))
    ("storage/documents/" ++ docId ++ "/"
     ++ Js.toString (Js.Int (clock env 0)) ++ "-" ++ originalname file)
    None (req_userId req) (Some (clock env 1))
    (str_or_null
       (Some match str_or_null changeSummary with
             | Some c => c
             | None => "New version uploaded"
             end))
    (originalname file) (num_or_null (Some (size file)))
    (str_or_null (Some (mimetype file))).

(** The storage after one upload to the sample document. *)
Definition store_after_upload : MemStorage :=
  snd (serve (post_versions (as_user "alice") "d1" (Some upload) None true)
         env0 (store_with DRAFT WF_DRAFT [])).

(** A list in which every element is at most the ones before it. *)
Inductive descending {A} (key : A -> Z) : list A -> Prop :=
| descending_nil : descending key []
| descending_cons (x : A) (l : list A) :
    (forall y, In y l -> key y <= key x) ->
    descending key l -> descending key (x :: l).

(** The decimal numeral of a natural number. *)
Definition decimal (n : N) : string := NilEmpty.string_of_uint (N.to_uint n).

(** An office session that expires at 5000, and a clock that stands at [t]. *)
Definition session1 : OfficeLogin.t :=
  OfficeLogin.mk "l1" "NYC001" None (Some 0) None "tok" (Some true) 5000.

Definition office_store : MemStorage :=
  mkMem [] [] [] [] [] [] [("tok", session1)].

Definition clock_at (t : Date) : Env := mkEnv (fun _ => t) (random_id env0).

(** A creation request that names a status. *)
Definition body_with_status (status : Js.value) : CreateBody :=
  mkCreateBody (Js.Str "Q3 Report") Js.Undefined status None None None None
    Js.Undefined.

(** The bodies that [insertDocumentSchema.parse] accepts. *)
Definition accepted (body : CreateBody) : bool :=
  match cb_title body, Js.or (cb_content body) (Js.Str ""),
        parse_status (cb_status body) with
  | Js.Str _, Js.Str _, Some _ => true
  | _, _, _ => false
  end.

(** [getWorkflow(docId)] on a storage. *)
Definition workflow_of (docId : string) (st : MemStorage) : option Workflow.t :=
  find (fun w => String.eqb (Workflow.docId w) docId) (JsMap.values (workflows st)).


(** Unfolding one request down to the storage calls. *)
Ltac run_handler :=
  unfold serve, try_catch, bind, getDocument, getUser, read, ret; cbn.

(* ===================================================================== *)
(** ** Vocabulary of the further properties *)
(* ===================================================================== *)

(** The ids under which documents are stored. *)
Definition document_ids (m : MemStorage) : list string :=
  JsMap.keys (documents m).

(** What no lifecycle transition touches: the users, the stored versions,
    the office sessions, and which documents exist. *)
Definition same_frame (m m' : MemStorage) : Prop :=
  users m' = users m
  /\ documentVersions m' = documentVersions m
  /\ officeLogins m' = officeLogins m
  /\ document_ids m' = document_ids m.

(** The audit entry of a request on a document. *)
Definition audit_entry_of (req : Req) (action docId : string) (e : AuditLog.t)
  : Prop :=
  AuditLog.actorUid e = req_userId req
  /\ AuditLog.action e = action
  /\ AuditLog.target_type e = "document"
  /\ AuditLog.target_id e = docId.

(** [v.createdAt?.getTime() || 0], the sort key of the versions. *)
Definition created_key (v : DocumentVersion.t) : Z :=
  getTime_or_0 (DocumentVersion.createdAt v).

(** The stored versions of a document, in the order of the map. *)
Definition stored_versions (docId : string) (st : MemStorage)
  : list DocumentVersion.t :=
  filter (fun v => String.eqb (DocumentVersion.docId v) docId)
         (JsMap.values (documentVersions st)).

(** [getLatestVersion(docId)] on a storage. *)
Definition latest_version (docId : string) (st : MemStorage)
  : option DocumentVersion.t :=
  match fst (exec (getLatestVersion docId) (mkEnv (fun _ => 0) (fun _ => "")) st) with
  | Ok v => v
  | Throw _ => None
  end.

(** The sort key of the tasks. *)
Definition task_key (t : Task.t) : Z := getTime_or_0 (Task.createdAt t).

(** A task of bob's and a task of carol's on the sample document, and a
    storage that holds both. *)
Definition bob_task (state : TaskState) : Task.t :=
  Task.mk "t1" T_REVIEW "d1" "w1" (Some state) (Some ["bob"]) (Some 20) None
    Js.Null.

Definition carol_task : Task.t :=
  Task.mk "t2" T_APPROVE "d1" "w1" (Some OPEN) (Some ["carol"]) (Some 30) None
    Js.Null.

Definition approval_store : MemStorage :=
  mkMem sample_users [("d1", report IN_REVIEW)] []
        [("w1", report_workflow WF_REVIEW [submit_entry 15 "alice"])]
        [("t1", bob_task OPEN); ("t2", carol_task)] [] [].

(* ===================================================================== *)
(** ** server/storage.ts: users and offices *)
(* ===================================================================== *)

(** The methods below read and write one map of [MemStorage] each; they are
    given that map, and the id that [generateId()] returns when they call
    it. *)

(** [UpsertUser], with the keys that [User.t] carries. *)
Record UpsertUser := mkUpsertUser {
  up_id : option string;
  up_email : Js.value;
  up_roles : option (list UserRole)
}.

(** [u.email === userData.email], on a stored email that is a string or
    [null]. *)
Definition same_email (stored : option string) (given : Js.value) : bool :=
  match given, stored with
  | Js.Null, None => true
  | Js.Str s, Some s' => String.eqb s' s
  | _, _ => false
  end.

(** [userData.email || null]. *)
Definition email_or_null (given : Js.value) : option string :=
  match given with
  | Js.Str s => str_or_null (Some s)
  | _ => None
  end.

(** [MemStorage.upsertUser]: the user is looked up by email, and keeps the
    id found or takes a new one; the object that is stored has no
    [officeId]. *)
Definition upsertUser (userData : UpsertUser) (newId : string)
  (us : JsMap.t User.t) : User.t * JsMap.t User.t :=
  let existingUser :=
    find (fun u => same_email (User.email u) (up_email userData))
         (JsMap.values us) in
  let id :=
    match existingUser with
    | Some u => if String.eqb (User.id u) "" then newId else User.id u
    | None => newId
    end in
  let user :=
    User.mk id (email_or_null (up_email userData))
      (Some (Js.or_empty (up_roles userData))) None in
  (user, JsMap.set id user us).

(** [MemStorage.assignUserToOffice]. *)
Definition assignUserToOffice (userId officeId : string) (us : JsMap.t User.t)
  : option User.t * JsMap.t User.t :=
  match JsMap.get userId us with
  | None => (None, us)
  | Some user =>
      let updatedUser :=
        User.mk (User.id user) (User.email user) (User.roles user)
          (Some officeId) in
      (Some updatedUser, JsMap.set userId updatedUser us)
  end.

(** [MemStorage.updateUserRoles]. *)
Definition updateUserRoles (userId : string) (roles : list UserRole)
  (us : JsMap.t User.t) : option User.t * JsMap.t User.t :=
  match JsMap.get userId us with
  | None => (None, us)
  | Some user =>
      let updatedUser :=
        User.mk (User.id user) (User.email user) (Some roles)
          (User.officeId user) in
      (Some updatedUser, JsMap.set userId updatedUser us)
  end.

(** [u.officeId === officeId]. *)
Definition in_office (officeId : string) (u : User.t) : bool :=
  match User.officeId u with
  | Some o => String.eqb o officeId
  | None => false
  end.

(** [MemStorage.getOfficeMembers] and [getUsersByOffice]. *)
Definition getOfficeMembers (officeId : string) (us : JsMap.t User.t)
  : list User.t :=
  filter (in_office officeId) (JsMap.values us).

(** [MemStorage.getUsersByRole]. *)
Definition getUsersByRole (role : UserRole) (us : JsMap.t User.t) : list User.t :=
  filter (fun u => roles_include (User.roles u) role) (JsMap.values us).

(** An office as [MemStorage] holds it.  The code and the password are
    absent from the offices that [createOffice] makes. *)
Module Office.
Record t := mk {
  id : string;
  officeId : string;
  name : string;
  description : option string;
  officeCode : option string;
  officePassword : option string;
  adminUsers : list string;
  members : list string;
  departmentId : option string
}.
End Office.

(** [InsertOffice]. *)
Record InsertOffice := mkInsertOffice {
  io_officeId : string;
  io_name : string;
  io_description : option string;
  io_officeCode : string;
  io_officePassword : string;
  io_adminUsers : option (list string);
  io_members : option (list string);
  io_departmentId : option string
}.

(** [MemStorage.createOffice]: the object literal has no [officeCode] and
    no [officePassword]. *)
Definition createOffice (office : InsertOffice) (id : string)
  (offices : JsMap.t Office.t) : Office.t * JsMap.t Office.t :=
  let newOffice :=
    Office.mk id (io_officeId office) (io_name office)
      (str_or_null (io_description office)) None None
      (Js.or_empty (io_adminUsers office)) (Js.or_empty (io_members office))
      (str_or_null (io_departmentId office)) in
  (newOffice, JsMap.set id newOffice offices).

(** [o.officeCode === officeCode]. *)
Definition has_code (officeCode : string) (o : Office.t) : bool :=
  match Office.officeCode o with
  | Some c => String.eqb c officeCode
  | None => false
  end.

(** [MemStorage.getOfficeByCode]. *)
Definition getOfficeByCode (officeCode : string) (offices : JsMap.t Office.t)
  : option Office.t :=
  find (has_code officeCode) (JsMap.values offices).

(** [MemStorage.getOfficeByOfficeId]. *)
Definition getOfficeByOfficeId (officeId : string) (offices : JsMap.t Office.t)
  : option Office.t :=
  find (fun o => String.eqb (Office.officeId o) officeId) (JsMap.values offices).

(** [MemStorage.validateOfficeLogin]:
    [if (!office || office.officePassword !== password) return null]. *)
Definition validateOfficeLogin (officeCode password : string)
  (offices : JsMap.t Office.t) : option Office.t :=
  match getOfficeByCode officeCode offices with
  | None => None
  | Some office =>
      match Office.officePassword office with
      | Some p => if String.eqb p password then Some office else None
      | None => None
      end
  end.

(* ===================================================================== *)
(** ** server/routes.ts: office login and logout *)
(* ===================================================================== *)

(** The body of the answer of the office login. *)
Inductive LoginJson :=
| LoginMessage (message : string)
| LoginSuccessful (sessionToken : string) (id officeId name : string)
    (description : option string).

Record LoginResponse := mkLoginResponse {
  login_status : nat;
  login_json : LoginJson
}.

(** POST /api/office/login.  [officeCode] and [password] are the values of
    these keys in the body; the offices are read only.  The token is drawn
    in the handler by the expression that [generateId] has. *)
Definition post_office_login (offices : JsMap.t Office.t) (ip : option string)
  (officeCode password : Js.value) : M LoginResponse :=
  if negb (Js.truthy officeCode) || negb (Js.truthy password)
  then ret (mkLoginResponse 400
              (LoginMessage "Office code and password are required"))
  else
    match
      match officeCode, password with
      | Js.Str c, Js.Str p => validateOfficeLogin c p offices
      | _, _ => None
      end
    with
    | None => ret (mkLoginResponse 401
                     (LoginMessage "Invalid office code or password"))
    | Some office =>
        sessionToken <- generateId ;;
        _ <- now ;;
        officeLogin <-
          createOfficeLogin
            (mkInsertOfficeLogin (Office.officeId office) None ip sessionToken) ;;
        ret (mkLoginResponse 200
               (LoginSuccessful (OfficeLogin.sessionToken officeLogin)
                  (Office.id office) (Office.officeId office)
                  (Office.name office) (Office.description office)))
    end.

(** POST /api/office/logout, behind the session middleware. *)
Definition post_office_logout (header query : option string) : M Response :=
  checked <- validateOfficeSession_mw header query ;;
  match checked with
  | Refused response => ret response
  | Next session =>
      try_catch
        (invalidateOfficeSession (OfficeLogin.sessionToken session) ;;;
         ret (mkResponse 200 (Message "Logged out successfully")))
        (fun _ => mkResponse 500 (Message "Logout failed"))
  end.

(** The token that a login in [env] hands out. *)
Definition issued_token (env : Env) : string :=
  if String.eqb (random_id env 0) "" then random_id env 2 else random_id env 0.

(** Sample offices: one with a code, as the sample data has them. *)
Definition nyc : Office.t :=
  Office.mk "o1" "NYC001" "New York Office" None (Some "NYC001")
    (Some "secure123") ["root"] [] None.

Definition sample_offices : JsMap.t Office.t := [("o1", nyc)].

Definition empty_store : MemStorage := mkMem [] [] [] [] [] [] [].

(* ===================================================================== *)
(** ** server/storage.ts and server/routes.ts: audit reads, office
       administration, messages, comments *)
(* ===================================================================== *)

(** [MemStorage.getAuditLogs]. *)
Definition audit_logs_of (targetId targetType : string) (st : MemStorage)
  : list AuditLog.t :=
  sort_desc (fun log => getTime_or_0 (AuditLog.timestamp log))
    (filter (fun log =>
               String.eqb (AuditLog.target_id log) targetId
               && String.eqb (AuditLog.target_type log) targetType)
            (auditLogs st)).

Definition getAuditLogs (targetId targetType : string) : M (list AuditLog.t) :=
  m <- read ;; ret (audit_logs_of targetId targetType m).

Definition with_users (m : MemStorage) (x : JsMap.t User.t) :=
  mkMem x (documents m) (documentVersions m) (workflows m) (tasks m)
        (auditLogs m) (officeLogins m).

(** The answers of the office administration routes. *)
Inductive AdminJson :=
| AdminMessage (message : string)
| AdminValidationErrors
| UserAssigned (message : string) (user : User.t)
| OfficeJson (office : Office.t).

Record AdminResponse := mkAdminResponse {
  admin_status : nat;
  admin_json : AdminJson
}.

(** [!user?.roles?.includes('ADMIN')]. *)
Definition not_admin (user : option User.t) : bool :=
  match user with
  | Some u => negb (is_admin u)
  | None => true
  end.

(** POST /api/users/:userId/assign-office.  [officeId] is the value of that
    key in the body; the offices are read only. *)
Definition post_assign_office (offices : JsMap.t Office.t) (req : Req)
  (userId : string) (officeId : Js.value) : M AdminResponse :=
  adminUser <- getUser (req_userId req) ;;
  if not_admin adminUser
  then ret (mkAdminResponse 403 (AdminMessage "Admin access required"))
  else if negb (Js.truthy officeId)
  then ret (mkAdminResponse 400 (AdminMessage "Office ID is required"))
  else
    match
      match officeId with
      | Js.Str o => option_map (fun _ => o) (getOfficeByOfficeId o offices)
      | _ => None
      end
    with
    | None => ret (mkAdminResponse 404 (AdminMessage "Office not found"))
    | Some o =>
        m <- read ;;
        let (updatedUser, us) := assignUserToOffice userId o (users m) in
        modify (fun m => with_users m us) ;;;
        match updatedUser with
        | None => ret (mkAdminResponse 404 (AdminMessage "User not found"))
        | Some user =>
            ret (mkAdminResponse 200
                   (UserAssigned "User assigned to office successfully" user))
        end
    end.

(** The body of POST /api/offices: the required keys as any JSON value, the
    optional ones of their declared type. *)
Record OfficeBody := mkOfficeBody {
  ob_officeId : Js.value;
  ob_name : Js.value;
  ob_officeCode : Js.value;
  ob_officePassword : Js.value;
  ob_description : option string;
  ob_adminUsers : option (list string);
  ob_members : option (list string);
  ob_departmentId : option string
}.

(** [insertOfficeSchema.parse(req.body)]: the four columns that are not
    null and have no default are required strings. *)
Definition parse_insertOffice (body : OfficeBody) : option InsertOffice :=
  match ob_officeId body, ob_name body, ob_officeCode body,
        ob_officePassword body with
  | Js.Str officeId, Js.Str name, Js.Str code, Js.Str password =>
      Some (mkInsertOffice officeId name (ob_description body) code password
              (ob_adminUsers body) (ob_members body) (ob_departmentId body))
  | _, _, _, _ => None
  end.

(** POST /api/offices, on the offices map: the answer and the map after. *)
Definition post_offices (req : Req) (body : OfficeBody)
  (offices : JsMap.t Office.t) : M (AdminResponse * JsMap.t Office.t) :=
  user <- getUser (req_userId req) ;;
  if not_admin user
  then ret (mkAdminResponse 403 (AdminMessage "Admin access required"), offices)
  else
    match parse_insertOffice body with
    | None => ret (mkAdminResponse 400 AdminValidationErrors, offices)
    | Some validatedData =>
        match getOfficeByOfficeId (io_officeId validatedData) offices with
        | Some _ =>
            ret (mkAdminResponse 400 (AdminMessage "Office ID already exists"),
                 offices)
        | None =>
            id <- generateId ;;
            _ <- now ;;
            _ <- now ;;
            let (office, offices') := createOffice validatedData id offices in
            ret (mkAdminResponse 201 (OfficeJson office), offices')
        end
    end.

(** No two offices of the map have the same office id. *)
Definition unique_officeIds (offices : JsMap.t Office.t) : Prop :=
  NoDup (map Office.officeId (JsMap.values offices)).

(** A message as [MemStorage] holds it. *)
Module Message.
Record t := mk {
  id : string;
  title : string;
  content : string;
  senderUserId : string;
  messageType : string;
  targetOfficeId : option string;
  isRead : Js.value;
  priority : option string;
  createdAt : option Date
}.
End Message.




(** A comment as [MemStorage] holds it. *)
Module DocumentComment.
Record t := mk {
  id : string;
  docId : string;
  authorUid : string;
  body : string;
  createdAt : option Date;
  resolved : option bool
}.
End DocumentComment.

(** [InsertComment]. *)
Record InsertComment := mkInsertComment {
  ic_docId : string;
  ic_authorUid : string;
  ic_body : string;
  ic_resolved : option bool
}.

(** [MemStorage.createComment], given the id and the clock it reads. *)
Definition createComment (comment : InsertComment) (id : string) (created : Date)
  (comments : JsMap.t DocumentComment.t)
  : DocumentComment.t * JsMap.t DocumentComment.t :=
  let com :=
    DocumentComment.mk id (ic_docId comment) (ic_authorUid comment)
      (ic_body comment) (Some created)
      (Some match ic_resolved comment with
            | Some b => b
            | None => false
            end) in
  (com, JsMap.set id com comments).

(** [MemStorage.getDocumentComments]. *)
Definition getDocumentComments (docId : string)
  (comments : JsMap.t DocumentComment.t) : list DocumentComment.t :=
  sort_desc (fun c => getTime_or_0 (DocumentComment.createdAt c))
    (filter (fun c => String.eqb (DocumentComment.docId c) docId)
            (JsMap.values comments)).

(** [insertCommentSchema.parse({ ...req.body, docId, authorUid: userId })]:
    [body] is a required string, [resolved] an optional, nullable
    boolean. *)
Definition parse_insertComment (docId authorUid : string)
  (body resolved : Js.value) : option InsertComment :=
  match body, resolved with
  | Js.Str b, Js.Undefined | Js.Str b, Js.Null =>
      Some (mkInsertComment docId authorUid b None)
  | Js.Str b, Js.Bool r => Some (mkInsertComment docId authorUid b (Some r))
  | _, _ => None
  end.

Inductive CommentJson :=
| CommentMessage (message : string)
| CommentCreated (comment : DocumentComment.t).

Record CommentResponse := mkCommentResponse {
  comment_status : nat;
  comment_json : CommentJson
}.

(** POST /api/documents/:id/comments, on the comments map: the answer and
    the map after.  Every failure, a failed [parse] too, is answered 500. *)
Definition post_comments (req : Req) (docId : string) (body resolved : Js.value)
  (comments : JsMap.t DocumentComment.t)
  : M (CommentResponse * JsMap.t DocumentComment.t) :=
  match parse_insertComment docId (req_userId req) body resolved with
  | None =>
      ret (mkCommentResponse 500 (CommentMessage "Failed to create comment"),
           comments)
  | Some validatedData =>
      id <- generateId ;;
      created <- now ;;
      let (comment, comments') := createComment validatedData id created comments in
      createAuditLog (audit req "ADD_COMMENT" docId Js.Undefined) ;;;
      ret (mkCommentResponse 201 (CommentCreated comment), comments')
  end.

(* ===================================================================== *)
(** ** Basic facts *)
(* ===================================================================== *)

Lemma DocumentStatus_eqb_eq (a b : DocumentStatus) :
  DocumentStatus_eqb a b = true <-> a = b.
Proof. destruct a, b; cbn; split; congruence. Qed.

Lemma status_is_true (document : Document.t) (s : DocumentStatus) :
  status_is document s = true <-> Document.status document = Some s.
Proof.
  unfold status_is. destruct (Document.status document) as [s'|].
  - rewrite DocumentStatus_eqb_eq. split; congruence.
  - split; discriminate.
Qed.

Lemma status_is_false (document : Document.t) (s : DocumentStatus) :
  status_is document s = false <-> Document.status document <> Some s.
Proof.
  rewrite <- status_is_true. destruct (status_is document s); split; congruence.
Qed.

(** The guard of the submit handler, on any request. *)
Lemma submit_not_draft (env : Env) (st : MemStorage) (req : Req)
  (docId : string) (document : Document.t) :
  JsMap.get docId (documents st) = Some document ->
  Document.status document <> Some DRAFT ->
  serve (post_submit req docId) env st
  = (mkResponse 400 (Message "Document must be in DRAFT status"), st).
Proof.
  intros Hdoc Hstatus. apply status_is_false in Hstatus.
  unfold post_submit. run_handler. rewrite Hdoc, Hstatus. reflexivity.
Qed.

(** The reason test of the reject handler, on any falsy reason. *)
Lemma reject_falsy_reason (env : Env) (st : MemStorage) (req : Req)
  (docId : string) (body : Body) :
  Js.truthy (Js.lookup body "reason") = false ->
  serve (post_reject req docId body) env st
  = (mkResponse 400 (Message "Rejection reason is required"), st).
Proof.
  intros Hreason. unfold post_reject. run_handler. rewrite Hreason. reflexivity.
Qed.

(* ===================================================================== *)
(** ** Submit and reject: guards that run before any write *)
(* ===================================================================== *)

(** C3. For every existing document whose status is not DRAFT, submit answers
    the state-conflict error (400) and the whole storage (the document, the
    workflow state and history, the tasks, the audit log) is unchanged. *)
Theorem submit_conflict_leaves_storage (env : Env) (st : MemStorage)
  (req : Req) (docId : string) (document : Document.t) :
  JsMap.get docId (documents st) = Some document ->
  Document.status document <> Some DRAFT ->
  let (response, st') := serve (post_submit req docId) env st in
  response = mkResponse 400 (Message "Document must be in DRAFT status")
  /\ st' = st
  /\ JsMap.get docId (documents st') = Some document
  /\ workflows st' = workflows st
  /\ tasks st' = tasks st
  /\ auditLogs st' = auditLogs st.
Proof.
  intros Hdoc Hstatus.
  rewrite (submit_not_draft env st req docId document Hdoc Hstatus).
  repeat split; assumption.
Qed.

Lemma submit_conflict_leaves_storage_witness :
  serve (post_submit (as_user "alice") "d1") env0 (store_with APPROVED WF_DONE [])
  = (mkResponse 400 (Message "Document must be in DRAFT status"),
     store_with APPROVED WF_DONE []).
Proof.
  pose proof (submit_conflict_leaves_storage env0 (store_with APPROVED WF_DONE [])
                (as_user "alice") "d1" (report APPROVED)) as H.
  destruct (serve (post_submit (as_user "alice") "d1") env0
              (store_with APPROVED WF_DONE [])) as [response st'].
  destruct H as (Hr & Hst & _).
  - reflexivity.
  - discriminate.
  - rewrite Hr, Hst. reflexivity.
Defined.

(** C4. Reject with a missing or an empty reason answers the validation error
    (400) before any read or write: the document status, the workflow state
    and history and the audit log are those of the storage before. *)
Theorem reject_requires_reason (env : Env) (st : MemStorage) (req : Req)
  (docId : string) (body : Body) :
  Js.lookup body "reason" = Js.Undefined \/ Js.lookup body "reason" = Js.Str "" ->
  let (response, st') := serve (post_reject req docId body) env st in
  response = mkResponse 400 (Message "Rejection reason is required")
  /\ st' = st
  /\ documents st' = documents st
  /\ workflows st' = workflows st
  /\ auditLogs st' = auditLogs st.
Proof.
  intros Hreason.
  rewrite (reject_falsy_reason env st req docId body).
  - repeat split.
  - destruct Hreason as [-> | ->]; reflexivity.
Qed.

Lemma reject_requires_reason_witness :
  serve (post_reject (as_user "bob") "d1" [("reason", Js.Str "")]) env0
    (store_with IN_REVIEW WF_REVIEW [])
  = (mkResponse 400 (Message "Rejection reason is required"),
     store_with IN_REVIEW WF_REVIEW []).
Proof.
  pose proof (reject_requires_reason env0 (store_with IN_REVIEW WF_REVIEW [])
                (as_user "bob") "d1" [("reason", Js.Str "")]) as H.
  destruct (serve (post_reject (as_user "bob") "d1" [("reason", Js.Str "")]) env0
              (store_with IN_REVIEW WF_REVIEW [])) as [response st'].
  destruct H as (Hr & Hst & _).
  - right. reflexivity.
  - rewrite Hr, Hst. reflexivity.
Defined.

(* ===================================================================== *)
(** ** What the lifecycle handlers answer *)
(* ===================================================================== *)

(** A request that passes the guards of its handler reaches
    [storage.updateDocument], the first storage call after them.  The call
    throws, the [catch] of the handler answers 500, and no map has been
    written. *)
Lemma post_submit_outcome (env : Env) (st : MemStorage) (req : Req)
  (docId : string) :
  serve (post_submit req docId) env st
  = (match JsMap.get docId (documents st) with
     | None => mkResponse 404 (Message "Document not found")
     | Some document =>
         if negb (status_is document DRAFT)
         then mkResponse 400 (Message "Document must be in DRAFT status")
         else if negb (canEditDocument document
                         (JsMap.get (req_userId req) (users st)))
         then mkResponse 403 (Message "Access denied")
         else mkResponse 500 (Message "Failed to submit document")
     end, st).
Proof.
  unfold post_submit. run_handler.
  destruct (JsMap.get docId (documents st)) as [document|]; [|reflexivity].
  destruct (status_is document DRAFT); cbn; [|reflexivity].
  destruct (canEditDocument document (JsMap.get (req_userId req) (users st)));
    reflexivity.
Qed.

Lemma post_approve_outcome (env : Env) (st : MemStorage) (req : Req)
  (docId : string) (body : Body) :
  serve (post_approve req docId body) env st
  = (match JsMap.get docId (documents st) with
     | None => mkResponse 404 (Message "Document not found")
     | Some document =>
         if negb (canApproveDocument document
                    (JsMap.get (req_userId req) (users st)))
         then mkResponse 403 (Message "Access denied")
         else mkResponse 500 (Message "Failed to approve document")
     end, st).
Proof.
  unfold post_approve. run_handler.
  destruct (JsMap.get docId (documents st)) as [document|]; [|reflexivity].
  cbn [mem].
  destruct (canApproveDocument document (JsMap.get (req_userId req) (users st)));
    reflexivity.
Qed.

Lemma post_reject_outcome (env : Env) (st : MemStorage) (req : Req)
  (docId : string) (body : Body) :
  serve (post_reject req docId body) env st
  = (if negb (Js.truthy (Js.lookup body "reason"))
     then mkResponse 400 (Message "Rejection reason is required")
     else
       match JsMap.get docId (documents st) with
       | None => mkResponse 404 (Message "Document not found")
       | Some document =>
           if negb (canApproveDocument document
                      (JsMap.get (req_userId req) (users st)))
              && negb (canReviewDocument document
                         (JsMap.get (req_userId req) (users st)))
           then mkResponse 403 (Message "Access denied")
           else mkResponse 500 (Message "Failed to reject document")
       end, st).
Proof.
  unfold post_reject. run_handler.
  destruct (Js.truthy (Js.lookup body "reason")); cbn; [|reflexivity].
  destruct (JsMap.get docId (documents st)) as [document|]; [|reflexivity].
  cbn [mem].
  destruct (negb (canApproveDocument document
                    (JsMap.get (req_userId req) (users st)))
            && negb (canReviewDocument document
                       (JsMap.get (req_userId req) (users st))));
    reflexivity.
Qed.

Lemma patch_documents_outcome (env : Env) (st : MemStorage) (req : Req)
  (id : string) (title content : option string) :
  serve (patch_documents req id title content) env st
  = (match JsMap.get id (documents st) with
     | None => mkResponse 404 (Message "Document not found")
     | Some document =>
         if negb (String.eqb (Document.ownerUid document) (req_userId req))
            && negb (Js.opt_includes
                       (participant_list document Participants.editors)
                       (req_userId req))
         then mkResponse 403 (Message "Access denied")
         else if negb (status_is document DRAFT || status_is document REJECTED)
         then mkResponse 400 (Message "Document cannot be edited in current state")
         else mkResponse 500 (Message "Failed to update document")
     end, st).
Proof.
  unfold patch_documents. run_handler.
  destruct (JsMap.get id (documents st)) as [document|]; [|reflexivity].
  destruct (negb (String.eqb (Document.ownerUid document) (req_userId req))
            && negb (Js.opt_includes
                       (participant_list document Participants.editors)
                       (req_userId req))); [reflexivity|].
  destruct (negb (status_is document DRAFT || status_is document REJECTED));
    reflexivity.
Qed.

(** C10. In the submit handler the DRAFT test comes before the permission
    test: on an existing document that is not in DRAFT every caller, also one
    who may not edit, is answered 400 and never 403; a 403 answer means that
    the document is in DRAFT and the caller may not edit it. *)
Theorem submit_conflict_before_permission (env : Env) (st : MemStorage)
  (docId : string) (document : Document.t) :
  JsMap.get docId (documents st) = Some document ->
  (Document.status document <> Some DRAFT ->
   forall req : Req,
     fst (serve (post_submit req docId) env st)
     = mkResponse 400 (Message "Document must be in DRAFT status"))
  /\ (forall req : Req,
        res_status (fst (serve (post_submit req docId) env st)) = 403%nat ->
        Document.status document = Some DRAFT
        /\ canEditDocument document (JsMap.get (req_userId req) (users st)) = false).
Proof.
  intros Hdoc. split.
  - intros Hstatus req.
    rewrite (submit_not_draft env st req docId document Hdoc Hstatus). reflexivity.
  - intros req. rewrite post_submit_outcome, Hdoc. cbn [fst].
    destruct (status_is document DRAFT) eqn:Hdraft; cbn; [|discriminate].
    apply status_is_true in Hdraft.
    destruct (canEditDocument document (JsMap.get (req_userId req) (users st)));
      cbn; [discriminate|].
    intros _. split; [assumption | reflexivity].
Qed.

Lemma submit_conflict_before_permission_witness :
  fst (serve (post_submit (as_user "bob") "d1") env0 (store_with APPROVED WF_DONE []))
  = mkResponse 400 (Message "Document must be in DRAFT status").
Proof.
  destruct (submit_conflict_before_permission env0 (store_with APPROVED WF_DONE [])
              "d1" (report APPROVED)) as [H400 _].
  - reflexivity.
  - apply H400. discriminate.
Defined.

(* ===================================================================== *)
(** ** Access predicates *)
(* ===================================================================== *)

Lemma includes_app (l1 l2 : list string) (x : string) :
  Js.includes (l1 ++ l2) x = Js.includes l1 x || Js.includes l2 x.
Proof. unfold Js.includes. apply existsb_app. Qed.

Lemma includes_push (l : option (list string)) (uid x : string) :
  Js.includes (Js.or_empty l) x = true ->
  Js.includes (Js.or_empty (push_uid l uid)) x = true.
Proof.
  intros H. unfold push_uid. cbn [Js.or_empty].
  rewrite includes_app, H. reflexivity.
Qed.

Lemma includes_pushed (l : option (list string)) (uid : string) :
  Js.includes (Js.or_empty (push_uid l uid)) uid = true.
Proof.
  unfold push_uid. cbn [Js.or_empty]. rewrite includes_app.
  apply orb_true_iff. right. unfold Js.includes. cbn.
  rewrite String.eqb_refl. reflexivity.
Qed.

(** C9. canAccess is monotonic in the participant lists: whatever uid is
    added to whichever of the four lists, a user who had access keeps it, so
    the result can only go from false to true; and the uid that is added has
    access afterwards. *)
Theorem canAccess_monotonic (document : Document.t) (user : option User.t)
  (which : ParticipantList) (uid : string) :
  (canAccessDocument document user = true ->
   canAccessDocument (add_participant which uid document) user = true)
  /\ (forall u : User.t,
        User.id u = uid ->
        canAccessDocument (add_participant which uid document) (Some u) = true).
Proof.
  split.
  - destruct user as [u|]; [|discriminate].
    unfold canAccessDocument, participant_list, add_participant.
    cbn [Document.participants Document.ownerUid].
    destruct (is_admin u); [reflexivity|].
    destruct (String.eqb (Document.ownerUid document) (User.id u)); [reflexivity|].
    destruct (Document.participants document) as [p|]; [|discriminate].
    rewrite !includes_app, !orb_true_iff. intros H.
    destruct which;
      cbn [add_to Participants.editors Participants.reviewers
             Participants.approvers Participants.viewers];
      intuition auto using includes_push.
  - intros u <-.
    unfold canAccessDocument, participant_list, add_participant.
    cbn [Document.participants Document.ownerUid].
    destruct (is_admin u); [reflexivity|].
    destruct (String.eqb _ _); [reflexivity|].
    destruct which;
      cbn [add_to Participants.editors Participants.reviewers
             Participants.approvers Participants.viewers];
      rewrite !includes_app, !orb_true_iff;
      auto using includes_pushed.
Qed.

Lemma canAccess_monotonic_witness :
  canAccessDocument (add_participant Viewers "dave" (report DRAFT)) (Some bob) = true.
Proof.
  destruct (canAccess_monotonic (report DRAFT) (Some bob) Viewers "dave")
    as [Hkeeps _].
  apply Hkeeps. reflexivity.
Defined.

(* ===================================================================== *)
(** ** Maps *)
(* ===================================================================== *)

Lemma get_set_same {V} (k : string) (v : V) (m : JsMap.t V) :
  JsMap.get k (JsMap.set k v m) = Some v.
Proof.
  induction m as [|[k' v'] rest IH]; cbn.
  - rewrite String.eqb_refl. reflexivity.
  - destruct (String.eqb k' k) eqn:E; cbn.
    + rewrite String.eqb_refl. reflexivity.
    + rewrite E. exact IH.
Qed.

Lemma get_set_other {V} (k k0 : string) (v : V) (m : JsMap.t V) :
  k <> k0 -> JsMap.get k0 (JsMap.set k v m) = JsMap.get k0 m.
Proof.
  intros Hne. induction m as [|[k' v'] rest IH]; cbn.
  - destruct (String.eqb_spec k k0); [contradiction | reflexivity].
  - destruct (String.eqb_spec k' k) as [->|Hk]; cbn.
    + destruct (String.eqb_spec k k0); [contradiction | reflexivity].
    + destruct (String.eqb k' k0); [reflexivity | exact IH].
Qed.

Lemma set_fresh {V} (k : string) (v : V) (m : JsMap.t V) :
  JsMap.get k m = None -> JsMap.set k v m = (m ++ [(k, v)])%list.
Proof.
  induction m as [|[k' v'] rest IH]; cbn; [reflexivity|].
  destruct (String.eqb k' k); [discriminate|].
  intros H. rewrite (IH H). reflexivity.
Qed.

Lemma in_values_set {V} (k : string) (v : V) (m : JsMap.t V) :
  In v (JsMap.values (JsMap.set k v m)).
Proof.
  unfold JsMap.values. induction m as [|[k' v'] rest IH]; cbn.
  - left. reflexivity.
  - destruct (String.eqb k' k); cbn; [left; reflexivity | right; exact IH].
Qed.

Lemma find_some_of_in {A} (p : A -> bool) (x : A) (l : list A) :
  In x l -> p x = true -> exists y, find p l = Some y.
Proof.
  intros Hin Hp. induction l as [|a l IH]; [contradiction|]. cbn.
  destruct (p a) eqn:E; [eauto|].
  destruct Hin as [->|Hin]; [congruence | auto].
Qed.

(* ===================================================================== *)
(** ** Office sessions *)
(* ===================================================================== *)

Lemma inactive_false (login : OfficeLogin.t) :
  inactive login = false <-> OfficeLogin.isActive login = Some true.
Proof.
  unfold inactive. destruct (OfficeLogin.isActive login) as [[|]|];
    split; congruence.
Qed.

(** [validateOfficeSession] against a storage: it writes nothing, and its
    result is decided by the lookup, the flag and one clock read. *)
Lemma validateOfficeSession_exec (env : Env) (st : MemStorage) (token : string) :
  exec (validateOfficeSession token) env st
  = (Ok match JsMap.get token (officeLogins st) with
        | None => None
        | Some login =>
            if inactive login then None
            else if OfficeLogin.expiresAt login <? clock env 0 then None
            else Some login
        end, st).
Proof.
  unfold exec, validateOfficeSession, bind, read, ret, now. cbn.
  destruct (JsMap.get token (officeLogins st)) as [login|]; [|reflexivity].
  destruct (inactive login); [reflexivity|]. cbn.
  destruct (OfficeLogin.expiresAt login <? clock env 0); reflexivity.
Qed.

(** C6, as stated, fails at the instant of expiry: a session whose
    [expiresAt] equals the clock is still accepted, although the clock is not
    strictly before [expiresAt]. *)
Lemma office_session_accepted_at_expiry :
  fst (exec (validateOfficeSession "tok") (clock_at 5000) office_store)
  = Ok (Some session1)
  /\ JsMap.get "tok" (officeLogins office_store) = Some session1
  /\ ~ (clock (clock_at 5000) 0 < OfficeLogin.expiresAt session1).
Proof.
  repeat split. cbn. lia.
Qed.

(** C6, amended. Validation succeeds exactly when the token is in the store,
    its [isActive] flag is true and the clock is not after [expiresAt]; it
    writes nothing; and for an unknown token, an inactive session and a
    clock after [expiresAt] the storage returns the same [undefined] and the
    middleware answers the same 401 with the same message. *)
Theorem office_session_validation (env : Env) (st : MemStorage) (token : string) :
  (forall login : OfficeLogin.t,
     fst (exec (validateOfficeSession token) env st) = Ok (Some login)
     <-> JsMap.get token (officeLogins st) = Some login
         /\ OfficeLogin.isActive login = Some true
         /\ clock env 0 <= OfficeLogin.expiresAt login)
  /\ snd (exec (validateOfficeSession token) env st) = st
  /\ (JsMap.get token (officeLogins st) = None
      \/ (exists login,
            JsMap.get token (officeLogins st) = Some login
            /\ (OfficeLogin.isActive login <> Some true
                \/ OfficeLogin.expiresAt login < clock env 0)) ->
      fst (exec (validateOfficeSession token) env st) = Ok None
      /\ (token <> "" ->
          forall query : option string,
            check_session (Some token) query env st
            = Some (Refused (mkResponse 401
                               (Message "Invalid or expired office session"))))).
Proof.
  assert (Hfail :
    fst (exec (validateOfficeSession token) env st) = Ok None ->
    token <> "" ->
    forall query : option string,
      check_session (Some token) query env st
      = Some (Refused (mkResponse 401 (Message "Invalid or expired office session")))).
  { intros Hnone Hne query. unfold check_session, validateOfficeSession_mw.
    unfold session_token. cbn [str_or_null].
    destruct (String.eqb_spec token "") as [->|_]; [contradiction|].
    cbn [str_or_null].
    destruct (String.eqb_spec token "") as [->|_]; [contradiction|].
    unfold exec in Hnone. unfold bind.
    destruct (validateOfficeSession token env (mkHeap st 0 0)) as [[[s|]|e] h'];
      cbn in Hnone; try discriminate. reflexivity. }
  rewrite validateOfficeSession_exec in *. cbn [fst snd] in *.
  split; [|split; [reflexivity|]].
  - intros login.
    destruct (JsMap.get token (officeLogins st)) as [l|].
    + destruct (inactive l) eqn:Hin.
      * split; [discriminate|]. intros (Hl & Hact & _). injection Hl as ->.
        apply inactive_false in Hact. congruence.
      * apply inactive_false in Hin.
        destruct (Z.ltb_spec (OfficeLogin.expiresAt l) (clock env 0)).
        -- split; [discriminate|]. intros (Hl & _ & Hle). injection Hl as ->. lia.
        -- split.
           ++ intros H0. injection H0 as ->. repeat split; [assumption | lia].
           ++ intros (Hl & _). rewrite Hl. reflexivity.
    + split; [discriminate | intros (Hl & _); discriminate].
  - intros Hcause.
    assert (Hnone :
      Ok match JsMap.get token (officeLogins st) with
         | None => None
         | Some login =>
             if inactive login then None
             else if OfficeLogin.expiresAt login <? clock env 0 then None
             else Some login
         end = Ok (@None OfficeLogin.t)).
    { destruct Hcause as [-> | (l & -> & Hbad)]; [reflexivity|].
      destruct (inactive l) eqn:Hin; [reflexivity|].
      apply inactive_false in Hin. destruct Hbad as [Hbad | Hbad]; [contradiction|].
      apply Z.ltb_lt in Hbad. rewrite Hbad. reflexivity. }
    split; [exact Hnone | apply Hfail; exact Hnone].
Qed.

(** A session's life: accepted after login, refused after logout and
    refused a day and a millisecond later, with the same answer. *)
Example session_lifecycle :
  let st0 := mkMem [] [] [] [] [] [] [] in
  let st1 := snd (exec (createOfficeLogin (mkInsertOfficeLogin "NYC001" None None "tok"))
                    (clock_at 1000) st0) in
  let st2 := snd (exec (invalidateOfficeSession "tok") (clock_at 2000) st1) in
  (exists login, check_session (Some "tok") None (clock_at 2000) st1 = Some (Next login))
  /\ check_session (Some "tok") None (clock_at 2000) st2
     = check_session (Some "nope") None (clock_at 2000) st1
  /\ check_session (Some "tok") None (clock_at (1000 + day_ms + 1)) st1
     = check_session (Some "nope") None (clock_at 2000) st1.
Proof.
  cbn. repeat split. eexists. reflexivity.
Qed.

Lemma office_session_validation_witness :
  fst (exec (validateOfficeSession "tok") (clock_at 5001) office_store) = Ok None
  /\ check_session (Some "tok") None (clock_at 5001) office_store
     = Some (Refused (mkResponse 401 (Message "Invalid or expired office session"))).
Proof.
  destruct (office_session_validation (clock_at 5001) office_store "tok")
    as (_ & _ & Hfail).
  destruct Hfail as [Hnone Hmw].
  - right. exists session1. split; [reflexivity|]. right. cbn. lia.
  - split; [exact Hnone|]. apply Hmw. discriminate.
Defined.

(* ===================================================================== *)
(** ** Creating a document *)
(* ===================================================================== *)

(** A creation request whose body the schema accepts runs the three storage
    calls in order. *)
Lemma post_documents_accepted (env : Env) (st : MemStorage) (req : Req)
  (body : CreateBody) (title content : string) (status : option DocumentStatus) :
  cb_title body = Js.Str title ->
  Js.or (cb_content body) (Js.Str "") = Js.Str content ->
  parse_status (cb_status body) = Some status ->
  let document :=
    Document.mk (random_id env 0) title
      (Some match str_or_null (Some content) with
            | Some c => c
            | None => ""
            end)
      (req_userId req) (str_or_null (cb_departmentId body))
      (Some (status_or_draft status)) None (Js.or_empty (cb_tags body))
      (Some (clock env 0)) (Some (clock env 1)) None
      (Some match cb_participants body with
            | Some p => p
            | None => Participants.empty
            end)
      (Some match cb_acl body with
            | Some a => a
            | None => Acl.empty
            end) in
  let workflow :=
    Workflow.mk (random_id env 1) (random_id env 0) (Some WF_DRAFT)
      (Js.or (cb_assignees body) empty_assignees) (Some [])
      (Some (clock env 2)) (Some (clock env 3)) in
  let log :=
    AuditLog.mk (random_id env 2) (req_userId req) "DOCUMENT_CREATED"
      "document" (random_id env 0) (Some (clock env 4))
      (str_or_null (req_ip req)) (str_or_null (req_userAgent req)) Js.Null in
  serve (post_documents req body) env st
  = (mkResponse 201 (DocumentJson (Some document)),
     mkMem (users st)
       (JsMap.set (random_id env 0) document (documents st))
       (documentVersions st)
       (JsMap.set (random_id env 1) workflow (workflows st))
       (tasks st)
       (auditLogs st ++ [log])
       (officeLogins st)).
Proof.
  intros Htitle Hcontent Hstatus.
  unfold post_documents, parse_insertDocument.
  rewrite Htitle, Hcontent, Hstatus. reflexivity.
Qed.

Lemma post_documents_refused (env : Env) (st : MemStorage) (req : Req)
  (body : CreateBody) :
  accepted body = false ->
  serve (post_documents req body) env st = (mkResponse 400 ValidationErrors, st).
Proof.
  unfold accepted, post_documents, parse_insertDocument. intros H.
  destruct (cb_title body), (Js.or (cb_content body) (Js.Str "")),
    (parse_status (cb_status body));
    try discriminate; reflexivity.
Qed.

(** C7, as stated, fails when the caller names a status: the document is
    created with that status, not with DRAFT. *)
Lemma create_with_supplied_status :
  match fst (serve (post_documents (as_user "alice")
                      (body_with_status (Js.Str "APPROVED")))
               env0 (store_with DRAFT WF_DRAFT [])) with
  | {| res_status := 201%nat; res_json := DocumentJson (Some document) |} =>
      Document.status document = Some APPROVED
      /\ Document.status document <> Some DRAFT
  | _ => False
  end.
Proof.
  cbn. split; [reflexivity | discriminate].
Qed.

(** C7, amended. Creation succeeds exactly on the bodies that the schema
    accepts, and then: the created document is owned by the caller; its
    status is the status that the caller supplied, and DRAFT when none was
    supplied; the document is stored under its id; and a workflow for the
    document, in state DRAFT with an empty history, is stored with it, so
    that the workflow lookup for the new document finds a workflow. *)
Theorem create_document_paired (env : Env) (st : MemStorage) (req : Req)
  (body : CreateBody) :
  (res_status (fst (serve (post_documents req body) env st)) = 201%nat
   <-> accepted body = true)
  /\ (res_status (fst (serve (post_documents req body) env st)) = 201%nat ->
      exists (document : Document.t) (workflow : Workflow.t)
             (status : option DocumentStatus) (st' : MemStorage),
        serve (post_documents req body) env st
        = (mkResponse 201 (DocumentJson (Some document)), st')
        /\ Document.ownerUid document = req_userId req
        /\ parse_status (cb_status body) = Some status
        /\ Document.status document = Some (status_or_draft status)
        /\ JsMap.get (Document.id document) (documents st') = Some document
        /\ JsMap.get (Workflow.id workflow) (workflows st') = Some workflow
        /\ Workflow.docId workflow = Document.id document
        /\ Workflow.state workflow = Some WF_DRAFT
        /\ Workflow.history workflow = Some []
        /\ exists w, workflow_of (Document.id document) st' = Some w).
Proof.
  destruct (accepted body) eqn:Hacc.
  - assert (Hrun := post_documents_accepted env st req body).
    unfold accepted in Hacc.
    destruct (cb_title body) as [| | | |title| |]; try discriminate.
    destruct (Js.or (cb_content body) (Js.Str "")) as [| | | |content| |];
      try discriminate.
    destruct (parse_status (cb_status body)) as [status|]; try discriminate.
    specialize (Hrun title content status eq_refl eq_refl eq_refl).
    cbv zeta in Hrun. rewrite Hrun. cbn [fst res_status].
    split; [split; reflexivity|]. intros _.
    eexists _, _, status, _. split; [reflexivity|].
    repeat split.
    all: try apply get_set_same.
    all: try reflexivity.
    unfold workflow_of. cbn [workflows Document.id].
    eapply find_some_of_in; [apply in_values_set|].
    cbn. apply String.eqb_refl.
  - rewrite (post_documents_refused env st req body Hacc). cbn.
    split; [split; discriminate | discriminate].
Qed.

Lemma create_document_paired_witness :
  exists (document : Document.t) (st' : MemStorage),
    serve (post_documents (as_user "alice") (body_with_status Js.Undefined))
      env0 (store_with DRAFT WF_DRAFT [])
    = (mkResponse 201 (DocumentJson (Some document)), st')
    /\ Document.ownerUid document = "alice"
    /\ Document.status document = Some DRAFT.
Proof.
  destruct (create_document_paired env0 (store_with DRAFT WF_DRAFT [])
              (as_user "alice") (body_with_status Js.Undefined)) as [_ Hcreated].
  destruct Hcreated as (document & workflow & status & st' & Hrun & Howner
                        & Hparse & Hstatus & _).
  - reflexivity.
  - exists document, st'. cbn in Hparse. injection Hparse as <-.
    repeat split; assumption.
Defined.

(* ===================================================================== *)
(** ** Approve and edit: what the handlers test *)
(* ===================================================================== *)



(** C2 at the failing input. The administrator root, who is neither the
    owner nor an editor of the DRAFT document, may edit it by [canEdit], and
    the edit handler answers 403 and writes nothing. *)
Theorem patch_refuses_admin :
  let st := store_with DRAFT WF_DRAFT [] in
  canEditDocument (report DRAFT) (JsMap.get "root" (users st)) = true
  /\ serve (patch_documents (as_user "root") "d1" (Some "Q3 Report, final") None)
       env0 st
     = (mkResponse 403 (Message "Access denied"), st).
Proof.
  split; reflexivity.
Qed.

(* ===================================================================== *)
(** ** Storage calls, one step at a time *)
(* ===================================================================== *)

Lemma bind_ok {A B} (c : M A) (k : A -> M B) (env : Env) (h h' : Heap) (a : A) :
  c env h = (Ok a, h') -> bind c k env h = k a env h'.
Proof. intros H. unfold bind. rewrite H. reflexivity. Qed.

Lemma has_false {V} (k : string) (m : JsMap.t V) :
  JsMap.has k m = false <-> JsMap.get k m = None.
Proof. unfold JsMap.has. destruct (JsMap.get k m); split; congruence. Qed.

Section KeyedMaps.

Context {V : Type} (id : V -> string).

Lemma well_keyed_cons (k : string) (v : V) (rest : JsMap.t V) :
  well_keyed id ((k, v) :: rest) = true ->
  k = id v /\ JsMap.get k rest = None /\ well_keyed id rest = true.
Proof.
  cbn. intros H. apply andb_true_iff in H as [H Hrest].
  apply andb_true_iff in H as [Hk Hnew].
  apply String.eqb_eq in Hk. apply negb_true_iff, has_false in Hnew. auto.
Qed.

(** Replacing that value by one that still satisfies [p] keeps it first. *)
Lemma find_set (p : V -> bool) (w w' : V) (m : JsMap.t V) :
  well_keyed id m = true ->
  find p (JsMap.values m) = Some w ->
  p w' = true ->
  find p (JsMap.values (JsMap.set (id w) w' m)) = Some w'.
Proof.
  induction m as [|[k v] rest IH]; [discriminate|].
  intros Hwk Hfind Hp. apply well_keyed_cons in Hwk as (-> & Hnew & Hrest).
  cbn in Hfind |- *. destruct (p v) eqn:Hv.
  - injection Hfind as ->. rewrite String.eqb_refl. cbn. rewrite Hp. reflexivity.
  - destruct (String.eqb (id v) (id w)); cbn.
    + rewrite Hp. reflexivity.
    + rewrite Hv. exact (IH Hrest Hfind Hp).
Qed.

End KeyedMaps.

Lemma getUser_run (env : Env) (h : Heap) (id : string) :
  getUser id env h = (Ok (JsMap.get id (users (mem h))), h).
Proof. reflexivity. Qed.

Lemma createAuditLog_run (env : Env) (h : Heap) (log : InsertAuditLog) :
  let auditLog :=
    AuditLog.mk (random_id env (draws h)) (al_actorUid log) (al_action log)
      (al_target_type log) (al_target_id log) (Some (clock env (ticks h)))
      (str_or_null (al_ip log)) (str_or_null (al_userAgent log))
      (Js.or (al_metadata log) Js.Null) in
  createAuditLog log env h
  = (Ok auditLog,
     mkHeap (with_auditLogs (mem h) (auditLogs (mem h) ++ [auditLog])%list)
       (S (ticks h)) (S (draws h))).
Proof. reflexivity. Qed.

(* ===================================================================== *)
(** ** Submit of a DRAFT document *)
(* ===================================================================== *)



(* ===================================================================== *)
(** ** Version numbers *)
(* ===================================================================== *)

Lemma before_dot_numeral (d : Decimal.uint) (rest : string) :
  Js.before_dot (NilEmpty.string_of_uint d ++ String "." rest)
  = NilEmpty.string_of_uint d.
Proof.
  induction d; cbn; try rewrite IHd; reflexivity.
Qed.

Lemma digits_numeral (d : Decimal.uint) :
  Js.digits (NilEmpty.string_of_uint d) = d.
Proof.
  induction d; cbn; try rewrite IHd; reflexivity.
Qed.

(** [parseInt] reads a decimal numeral back. *)
Lemma parseInt_numeral (d : Decimal.uint) :
  d <> Decimal.Nil ->
  Js.parseInt (NilEmpty.string_of_uint d) = Js.Int (Z.of_N (N.of_uint d)).
Proof.
  intros Hd. unfold Js.parseInt.
  assert (Hmag : Js.magnitude (NilEmpty.string_of_uint d) = Some (N.of_uint d)).
  { unfold Js.magnitude.
    assert (Hdigits : match Js.digits (NilEmpty.string_of_uint d) with
                      | Decimal.Nil => None
                      | u => Some (N.of_uint u)
                      end = Some (N.of_uint d)).
    { rewrite digits_numeral. destruct d; congruence. }
    destruct d as [|d'|d'|d'|d'|d'|d'|d'|d'|d'|d']; try exact Hdigits.
    destruct d'; exact Hdigits. }
  assert (Htrim : Js.trim_start (NilEmpty.string_of_uint d) = NilEmpty.string_of_uint d)
    by (destruct d; reflexivity).
  assert (Hsign : Js.split_sign (NilEmpty.string_of_uint d)
                  = (false, NilEmpty.string_of_uint d))
    by (destruct d; reflexivity).
  rewrite Htrim, Hsign, Hmag. reflexivity.
Qed.

Lemma to_uint_not_nil (n : N) : N.to_uint n <> Decimal.Nil.
Proof.
  destruct n as [|p]; [discriminate|].
  exact (DecimalPos.Unsigned.to_uint_nonnil p).
Qed.

(** The number after a version numbered [n.<anything>] is [n+1.0]. *)
Lemma next_after_numeral (n : N) (frac : string) (v : DocumentVersion.t)
  (others : list DocumentVersion.t) :
  DocumentVersion.versionNumber v = decimal n ++ "." ++ frac ->
  newVersionNumber (v :: others) = decimal (n + 1) ++ ".0".
Proof.
  intros Hv. unfold newVersionNumber. rewrite Hv. unfold decimal.
  change ("." ++ frac) with (String "." frac).
  rewrite before_dot_numeral, parseInt_numeral by apply to_uint_not_nil.
  rewrite DecimalN.Unsigned.of_to. cbn [Js.add1 Js.toString].
  destruct (Z.ltb_spec (Z.of_N n + 1) 0) as [Hneg|_]; [lia|].
  replace (Z.to_N (Z.of_N n + 1)) with (n + 1)%N by lia. reflexivity.
Qed.

Section SortDesc.

Context {A : Type} (key : A -> Z).

Lemma in_insert_desc (x y : A) (l : list A) :
  In y (insert_desc key x l) <-> x = y \/ In y l.
Proof.
  induction l as [|a l IH]; cbn; [tauto|].
  destruct (key x <? key a); cbn; rewrite ?IH; tauto.
Qed.

Lemma in_sort_desc (y : A) (l : list A) : In y (sort_desc key l) <-> In y l.
Proof.
  induction l as [|a l IH]; cbn; [tauto|].
  rewrite in_insert_desc, IH. tauto.
Qed.

Lemma insert_desc_descending (x : A) (l : list A) :
  descending key l -> descending key (insert_desc key x l).
Proof.
  induction 1 as [|a l Hle Hl IH]; cbn.
  - constructor; [intros y [] | constructor].
  - destruct (Z.ltb_spec (key x) (key a)).
    + constructor; [|exact IH].
      intros y Hy. apply in_insert_desc in Hy as [<-|Hy]; [lia | auto].
    + constructor; [|constructor; assumption].
      intros y [<-|Hy]; [lia|]. specialize (Hle y Hy). lia.
Qed.

Lemma sort_desc_descending (l : list A) : descending key (sort_desc key l).
Proof.
  induction l as [|a l IH]; cbn; [constructor|].
  apply insert_desc_descending. exact IH.
Qed.

(** The first element of the sorted list is one of the list, with the
    largest key. *)
Lemma sort_desc_head (l : list A) (x : A) (rest : list A) :
  sort_desc key l = x :: rest ->
  In x l /\ forall y, In y l -> key y <= key x.
Proof.
  intros Hsort. pose proof (sort_desc_descending l) as Hdesc.
  rewrite Hsort in Hdesc. inversion Hdesc as [|x' l' Hle _]; subst.
  split.
  - apply in_sort_desc. rewrite Hsort. left. reflexivity.
  - intros y Hy. apply in_sort_desc in Hy. rewrite Hsort in Hy.
    destruct Hy as [<-|Hy]; [lia | auto].
Qed.

(** The sort is stable: the first element is the one with the largest key,
    and among those with the largest key the one that comes first in the
    list. *)
Lemma insert_desc_front (x : A) (l : list A) :
  (forall y, In y l -> key y <= key x) -> insert_desc key x l = x :: l.
Proof.
  destruct l as [|a l]; [reflexivity|]. intros Hle. cbn.
  destruct (Z.ltb_spec (key x) (key a)) as [Hlt|_]; [|reflexivity].
  specialize (Hle a (or_introl eq_refl)). lia.
Qed.

Lemma sort_desc_first (before after : list A) (x : A) :
  (forall y, In y before -> key y < key x) ->
  (forall y, In y after -> key y <= key x) ->
  exists rest, sort_desc key (before ++ x :: after) = x :: rest.
Proof.
  intros Hbefore Hafter. induction before as [|b before IH]; cbn.
  - exists (sort_desc key after). apply insert_desc_front.
    intros y Hy. apply Hafter. apply in_sort_desc. exact Hy.
  - destruct IH as [rest Hrest].
    { intros y Hy. apply Hbefore. right. exact Hy. }
    rewrite Hrest. cbn.
    destruct (Z.ltb_spec (key b) (key x)) as [_|Hge].
    + eexists. reflexivity.
    + specialize (Hbefore b (or_introl eq_refl)). lia.
Qed.

End SortDesc.

Lemma createDocumentVersion_run (env : Env) (h : Heap)
  (version : InsertDocumentVersion) :
  let ver :=
    DocumentVersion.mk (random_id env (draws h)) (iv_docId version)
      (iv_versionNumber version) (iv_storagePath version)
      (str_or_null (iv_sha256 version)) (iv_createdBy version)
      (Some (clock env (ticks h))) (str_or_null (iv_changeSummary version))
      (iv_fileName version) (num_or_null (iv_fileSize version))
      (str_or_null (iv_mimeType version)) in
  createDocumentVersion version env h
  = (Ok ver,
     mkHeap (with_documentVersions (mem h)
               (JsMap.set (random_id env (draws h)) ver (documentVersions (mem h))))
       (S (ticks h)) (S (draws h))).
Proof. reflexivity. Qed.

Lemma filter_none {A} (p : A -> bool) (l : list A) :
  (forall y, In y l -> p y = false) -> filter p l = [].
Proof.
  induction l as [|a l IH]; [reflexivity|]. intros Hnone. cbn.
  rewrite (Hnone a (or_introl eq_refl)). apply IH.
  intros y Hy. apply Hnone. right. exact Hy.
Qed.

(** The only value that satisfies [p] after it was stored in a map that
    held none. *)
Lemma filter_values_set {V} (p : V -> bool) (k : string) (x : V) (m : JsMap.t V) :
  (forall y, In y (JsMap.values m) -> p y = false) -> p x = true ->
  filter p (JsMap.values (JsMap.set k x m)) = [x].
Proof.
  intros Hnone Hx. induction m as [|[k' v'] rest IH]; cbn.
  - rewrite Hx. reflexivity.
  - destruct (String.eqb k' k); cbn.
    + rewrite Hx. f_equal. apply filter_none.
      intros y Hy. apply Hnone. right. exact Hy.
    + rewrite (Hnone v' (or_introl eq_refl)). apply IH.
      intros y Hy. apply Hnone. right. exact Hy.
Qed.

(** An upload by a caller who may edit, with the file moved: the version is
    created and stored, then [storage.updateDocument] throws and the request
    is answered 500.  The stored version stays. *)
Lemma post_versions_stored (env : Env) (st : MemStorage) (req : Req)
  (docId : string) (file : UploadedFile) (changeSummary : option string)
  (document : Document.t) :
  JsMap.get docId (documents st) = Some document ->
  canEditDocument document (JsMap.get (req_userId req) (users st)) = true ->
  serve (post_versions req docId (Some file) changeSummary true) env st
  = (mkResponse 500 (Message "Failed to upload version"),
     with_documentVersions st
       (JsMap.set (random_id env 0)
          (uploaded_version env st req docId file changeSummary)
          (documentVersions st))).
Proof.
  intros Hdoc Hedit. unfold post_versions. run_handler.
  rewrite Hdoc. cbn [mem]. rewrite Hedit. reflexivity.
Qed.

(** C8. An upload by a caller who may edit stores a new version of the
    document (and is then answered 500, because [storage.updateDocument]
    throws after the version is stored).  When no stored version belongs to
    the document, the new version is numbered "1.0".  Otherwise, let
    [latest] be the most recent stored version of the document by
    createdAt, the first stored one among equally recent ones: when its
    number reads [n.<anything>], the new version is numbered [n+1.0] (for
    [n] in the range where JavaScript numbers are exact).  A second upload
    after a first one to a document without versions is numbered "2.0". *)
Theorem version_numbering (env : Env) (st : MemStorage) (req : Req)
  (docId : string) (file : UploadedFile) (changeSummary : option string)
  (document : Document.t) :
  JsMap.get docId (documents st) = Some document ->
  canEditDocument document (JsMap.get (req_userId req) (users st)) = true ->
  exists (version : DocumentVersion.t) (st' : MemStorage),
    serve (post_versions req docId (Some file) changeSummary true) env st
    = (mkResponse 500 (Message "Failed to upload version"), st')
    /\ JsMap.get (random_id env 0) (documentVersions st') = Some version
    /\ DocumentVersion.docId version = docId
    /\ ((forall v,
           In v (JsMap.values (documentVersions st)) ->
           DocumentVersion.docId v <> docId) ->
        DocumentVersion.versionNumber version = "1.0")
    /\ (forall (before after : list DocumentVersion.t)
               (latest : DocumentVersion.t) (n : N) (frac : string),
          JsMap.values (documentVersions st) = (before ++ latest :: after)%list ->
          DocumentVersion.docId latest = docId ->
          (forall v, In v before -> DocumentVersion.docId v = docId ->
                     created_key v < created_key latest) ->
          (forall v, In v after -> DocumentVersion.docId v = docId ->
                     created_key v <= created_key latest) ->
          (n < 2 ^ 53)%N ->
          DocumentVersion.versionNumber latest = decimal n ++ "." ++ frac ->
          DocumentVersion.versionNumber version = decimal (n + 1) ++ ".0")
    /\ ((forall v,
           In v (JsMap.values (documentVersions st)) ->
           DocumentVersion.docId v <> docId) ->
        forall (env' : Env) (file' : UploadedFile)
               (changeSummary' : option string),
        exists (second : DocumentVersion.t) (st'' : MemStorage),
          serve (post_versions req docId (Some file') changeSummary' true) env' st'
          = (mkResponse 500 (Message "Failed to upload version"), st'')
          /\ JsMap.get (random_id env' 0) (documentVersions st'') = Some second
          /\ DocumentVersion.versionNumber second = "2.0").
Proof.
  intros Hdoc Hedit.
  assert (Hnone : (forall v,
                      In v (JsMap.values (documentVersions st)) ->
                      DocumentVersion.docId v <> docId) ->
                  versions_of docId st = []).
  { intros Hfresh. unfold versions_of. rewrite filter_none; [reflexivity|].
    intros v Hv. apply String.eqb_neq. apply Hfresh. exact Hv. }
  eexists _, _. split;
    [apply (post_versions_stored env st req docId file changeSummary document
              Hdoc Hedit)|].
  cbn [documentVersions with_documentVersions].
  split; [apply get_set_same|]. split; [reflexivity|].
  split; [|split].
  - intros Hfresh. cbn [uploaded_version DocumentVersion.versionNumber].
    rewrite (Hnone Hfresh). reflexivity.
  - intros before after latest n frac Hvalues Hlatest Hbefore Hafter _ Hnumber.
    cbn [uploaded_version DocumentVersion.versionNumber].
    unfold versions_of. rewrite Hvalues, filter_app. cbn [filter].
    apply String.eqb_eq in Hlatest as Hsame. rewrite Hsame.
    destruct (sort_desc_first created_key
                (filter (fun v => String.eqb (DocumentVersion.docId v) docId) before)
                (filter (fun v => String.eqb (DocumentVersion.docId v) docId) after)
                latest) as [rest Hsorted].
    + intros v Hv. apply filter_In in Hv as [Hin Hv].
      apply Hbefore; [exact Hin | apply String.eqb_eq; exact Hv].
    + intros v Hv. apply filter_In in Hv as [Hin Hv].
      apply Hafter; [exact Hin | apply String.eqb_eq; exact Hv].
    + unfold created_key in Hsorted. rewrite Hsorted.
      apply (next_after_numeral n frac). exact Hnumber.
  - intros Hfresh env' file' changeSummary'.
    eexists _, _. split.
    + apply (post_versions_stored env' _ req docId file' changeSummary' document);
        [exact Hdoc | exact Hedit].
    + cbn [documentVersions with_documentVersions].
      split; [apply get_set_same|].
      cbn [uploaded_version DocumentVersion.versionNumber].
      unfold versions_of. cbn [documentVersions with_documentVersions].
      rewrite filter_values_set.
      * cbn [sort_desc insert_desc].
        apply (next_after_numeral 1 "0").
        cbn [uploaded_version DocumentVersion.versionNumber].
        rewrite (Hnone Hfresh). reflexivity.
      * intros v Hv. apply String.eqb_neq. apply Hfresh. exact Hv.
      * cbn. apply String.eqb_refl.
Qed.

Lemma version_numbering_witness :
  exists (version : DocumentVersion.t) (st' : MemStorage),
    serve (post_versions (as_user "alice") "d1" (Some upload) None true)
      env1 store_after_upload
    = (mkResponse 500 (Message "Failed to upload version"), st')
    /\ JsMap.get (random_id env1 0) (documentVersions st') = Some version
    /\ DocumentVersion.versionNumber version = "2.0".
Proof.
  destruct (version_numbering env1 store_after_upload (as_user "alice") "d1"
              upload None (report DRAFT))
    as (version & st' & Hrun & Hstored & _ & _ & Hnext & _); try reflexivity.
  exists version, st'. split; [exact Hrun|]. split; [exact Hstored|].
  eapply (Hnext [] [] _ 1%N "0").
  - reflexivity.
  - reflexivity.
  - intros v [].
  - intros v [].
  - reflexivity.
  - reflexivity.
Defined.

(** The scenario: the first upload is numbered "1.0", the second "2.0", and
    getDocumentVersions then returns both, the newer first. *)
Example two_uploads :
  let first := serve (post_versions (as_user "alice") "d1" (Some upload) None true)
                 env0 (store_with DRAFT WF_DRAFT []) in
  let second := serve (post_versions (as_user "alice") "d1" (Some upload) None true)
                  env1 (snd first) in
  map DocumentVersion.versionNumber (versions_of "d1" (snd first)) = ["1.0"]
  /\ map DocumentVersion.versionNumber (versions_of "d1" (snd second))
     = ["2.0"; "1.0"].
Proof. split; reflexivity. Qed.

(* ===================================================================== *)
(** ** Lifecycle transitions: what they leave as it was *)
(* ===================================================================== *)

(** X1. Submit, approve and reject, accepted or refused, never change the
    users, the stored versions or the office sessions, and never add or
    remove a document. *)
Theorem transitions_keep_frame (env : Env) (st : MemStorage) (req : Req)
  (docId : string) (body : Body) :
  same_frame st (snd (serve (post_submit req docId) env st))
  /\ same_frame st (snd (serve (post_approve req docId body) env st))
  /\ same_frame st (snd (serve (post_reject req docId body) env st)).
Proof.
  rewrite post_submit_outcome, post_approve_outcome, post_reject_outcome.
  cbn [snd]. unfold same_frame. repeat split.
Qed.

(** X2. On the storage of the program no submit, approve or reject is
    answered 200, and every one of them, whatever it answers (400, 403, 404
    or 500), leaves the whole storage as it was.  A request that passes the
    guards of its handler is answered 500, because the first storage call
    after the guards, [storage.updateDocument], is a call of a method that
    [MemStorage] does not have: so a reject with a reason, by a caller who
    may approve or review the document, is answered 500 in whatever status
    the document is. *)
Theorem transitions_write_nothing (env : Env) (st : MemStorage)
  (req : Req) (docId : string) (body : Body) :
  (let (response, st') := serve (post_submit req docId) env st in
   st' = st /\ In (res_status response) [400; 403; 404; 500]%nat)
  /\ (let (response, st') := serve (post_approve req docId body) env st in
      st' = st /\ In (res_status response) [403; 404; 500]%nat)
  /\ (let (response, st') := serve (post_reject req docId body) env st in
      st' = st
      /\ In (res_status response) [400; 403; 404; 500]%nat
      /\ forall document : Document.t,
           Js.truthy (Js.lookup body "reason") = true ->
           JsMap.get docId (documents st) = Some document ->
           canApproveDocument document
             (JsMap.get (req_userId req) (users st)) = true
           \/ canReviewDocument document
                (JsMap.get (req_userId req) (users st)) = true ->
           response = mkResponse 500 (Message "Failed to reject document")).
Proof.
  rewrite post_submit_outcome, post_approve_outcome, post_reject_outcome.
  split; [|split].
  - split; [reflexivity|].
    destruct (JsMap.get docId (documents st)) as [document|]; cbn; [|tauto].
    destruct (status_is document DRAFT); cbn; [|tauto].
    destruct (canEditDocument document _); cbn; tauto.
  - split; [reflexivity|].
    destruct (JsMap.get docId (documents st)) as [document|]; cbn; [|tauto].
    destruct (canApproveDocument document _); cbn; tauto.
  - split; [reflexivity|].
    destruct (Js.truthy (Js.lookup body "reason")); cbn;
      [|split; [tauto | discriminate]].
    destruct (JsMap.get docId (documents st)) as [document|]; cbn;
      [|split; [tauto | discriminate]].
    destruct (canApproveDocument document _) eqn:Happrove,
             (canReviewDocument document _) eqn:Hreview;
      cbn; (split; [tauto|]); intros d _ Hd; injection Hd as <-;
      intros [H|H]; (reflexivity || congruence).
Qed.

Lemma transitions_write_nothing_witness :
  serve (post_reject (as_user "bob") "d1" [("reason", Js.Str "Figures are off")])
    env0 (store_with IN_REVIEW WF_REVIEW [])
  = (mkResponse 500 (Message "Failed to reject document"),
     store_with IN_REVIEW WF_REVIEW []).
Proof.
  pose proof (transitions_write_nothing env0 (store_with IN_REVIEW WF_REVIEW [])
                (as_user "bob") "d1"
                [("reason", Js.Str "Figures are off")]) as (_ & _ & H).
  destruct (serve (post_reject (as_user "bob") "d1"
                     [("reason", Js.Str "Figures are off")])
              env0 (store_with IN_REVIEW WF_REVIEW [])) as [response st'].
  destruct H as (Hst & _ & H500).
  rewrite Hst, (H500 (report IN_REVIEW)); try reflexivity.
  right. reflexivity.
Defined.

(* ===================================================================== *)
(** ** Maps kept under the id of their values *)
(* ===================================================================== *)

Lemma keys_set_present {V} (k : string) (v v0 : V) (m : JsMap.t V) :
  JsMap.get k m = Some v0 -> JsMap.keys (JsMap.set k v m) = JsMap.keys m.
Proof.
  unfold JsMap.keys. induction m as [|[k' v'] rest IH]; cbn; [discriminate|].
  destruct (String.eqb_spec k' k) as [->|_]; cbn; [reflexivity|].
  intros H. rewrite (IH H). reflexivity.
Qed.

Section WellKeyed.

Context {V : Type} (id : V -> string).

Lemma well_keyed_key (k : string) (v : V) (m : JsMap.t V) :
  well_keyed id m = true -> JsMap.get k m = Some v -> k = id v.
Proof.
  induction m as [|[k' v'] rest IH]; [discriminate|].
  intros Hwk. apply well_keyed_cons in Hwk as (-> & _ & Hrest). cbn.
  destruct (String.eqb_spec (id v') k) as [<-|_].
  - intros H. injection H as ->. reflexivity.
  - apply IH. exact Hrest.
Qed.

Lemma well_keyed_in_get (v : V) (m : JsMap.t V) :
  well_keyed id m = true -> In v (JsMap.values m) -> JsMap.get (id v) m = Some v.
Proof.
  induction m as [|[k' v'] rest IH]; [intros _ []|].
  intros Hwk. apply well_keyed_cons in Hwk as (-> & Hnew & Hrest). cbn.
  intros [->|Hin].
  - rewrite String.eqb_refl. reflexivity.
  - specialize (IH Hrest Hin).
    destruct (String.eqb_spec (id v') (id v)) as [E|_]; [|exact IH].
    rewrite E in Hnew. congruence.
Qed.

End WellKeyed.

(* ===================================================================== *)
(** ** How the four permissions relate *)
(* ===================================================================== *)

Lemma includes_app_l (l1 l2 : list string) (x : string) :
  Js.includes l1 x = true -> Js.includes (l1 ++ l2) x = true.
Proof. intros H. rewrite includes_app, H. reflexivity. Qed.

Lemma includes_app_r (l1 l2 : list string) (x : string) :
  Js.includes l2 x = true -> Js.includes (l1 ++ l2) x = true.
Proof. intros H. rewrite includes_app, H. apply orb_true_r. Qed.

Lemma opt_includes_or_empty (l : option (list string)) (x : string) :
  Js.opt_includes l x = Js.includes (Js.or_empty l) x.
Proof. destruct l; reflexivity. Qed.

(** X8. Whoever may edit or review a document may read it, and so may
    whoever may approve it as an administrator or as a listed approver; but
    a user who may approve only through the APPROVER role (not an
    administrator, not the owner, in none of the four lists) may approve a
    document that the same user may not read. *)
Theorem permissions_and_access (document : Document.t) (user : option User.t) :
  (canEditDocument document user = true ->
   canAccessDocument document user = true)
  /\ (canReviewDocument document user = true ->
      canAccessDocument document user = true)
  /\ (canApproveDocument document user = true ->
      canAccessDocument document user = true
      \/ exists u, user = Some u /\ roles_include (User.roles u) APPROVER = true)
  /\ (forall u,
        user = Some u ->
        roles_include (User.roles u) APPROVER = true ->
        is_admin u = false ->
        Document.ownerUid document <> User.id u ->
        Js.opt_includes (participant_list document Participants.editors)
          (User.id u) = false ->
        Js.opt_includes (participant_list document Participants.reviewers)
          (User.id u) = false ->
        Js.opt_includes (participant_list document Participants.approvers)
          (User.id u) = false ->
        Js.opt_includes (participant_list document Participants.viewers)
          (User.id u) = false ->
        canApproveDocument document user = true
        /\ canAccessDocument document user = false).
Proof.
  unfold canEditDocument, canReviewDocument, canApproveDocument,
    canAccessDocument.
  destruct user as [u|].
  2:{ split; [|split; [|split]]; discriminate. }
  destruct (is_admin u) eqn:Hadmin.
  { split; [|split; [|split]]; auto.
    intros u' Hu Hrole Hno. injection Hu as <-. congruence. }
  split; [|split; [|split]].
  - destruct (String.eqb (Document.ownerUid document) (User.id u)); [reflexivity|].
    rewrite opt_includes_or_empty. apply includes_app_l.
  - rewrite opt_includes_or_empty. intros H.
    destruct (String.eqb (Document.ownerUid document) (User.id u)); [reflexivity|].
    apply includes_app_r, includes_app_l. exact H.
  - destruct (roles_include (User.roles u) APPROVER) eqn:Hrole.
    + intros _. right. exists u. split; [reflexivity | exact Hrole].
    + rewrite opt_includes_or_empty. intros H. left.
      destruct (String.eqb (Document.ownerUid document) (User.id u)); [reflexivity|].
      apply includes_app_r, includes_app_r, includes_app_l. exact H.
  - intros u' H Hrole _ Howner He Hr Ha Hv. injection H as <-.
    rewrite Hrole. split; [reflexivity|].
    destruct (String.eqb_spec (Document.ownerUid document) (User.id u));
      [contradiction|].
    rewrite !includes_app, <- !opt_includes_or_empty, He, Hr, Ha, Hv.
    reflexivity.
Qed.

Lemma permissions_and_access_witness :
  canApproveDocument (report IN_REVIEW)
    (Some (User.mk "dave" None (Some [APPROVER]) None)) = true
  /\ canAccessDocument (report IN_REVIEW)
       (Some (User.mk "dave" None (Some [APPROVER]) None)) = false.
Proof.
  destruct (permissions_and_access (report IN_REVIEW)
              (Some (User.mk "dave" None (Some [APPROVER]) None)))
    as (_ & _ & _ & Hrole).
  apply (Hrole (User.mk "dave" None (Some [APPROVER]) None));
    try reflexivity.
  discriminate.
Defined.

(* ===================================================================== *)
(** ** Editing a document *)
(* ===================================================================== *)

(** X9. On the storage of the program the edit route never changes
    anything: whatever it answers, the storage after the request is the
    storage before it, and the answer is never 200.  An edit by the owner or
    an editor of a DRAFT or REJECTED document, the one case that passes the
    guards, is answered 500: [storage.updateDocument] is a call of a method
    that [MemStorage] does not have, so the title and the content of the
    document stay as they were. *)
Theorem patch_writes_nothing (env : Env) (st : MemStorage) (req : Req)
  (id : string) (title content : option string) :
  let (response, st') := serve (patch_documents req id title content) env st in
  st' = st
  /\ In (res_status response) [400; 403; 404; 500]%nat
  /\ forall document : Document.t,
       JsMap.get id (documents st) = Some document ->
       Document.ownerUid document = req_userId req
       \/ Js.opt_includes (participant_list document Participants.editors)
            (req_userId req) = true ->
       Document.status document = Some DRAFT
       \/ Document.status document = Some REJECTED ->
       response = mkResponse 500 (Message "Failed to update document")
       /\ JsMap.get id (documents st') = Some document.
Proof.
  rewrite patch_documents_outcome. split; [reflexivity|]. split.
  - destruct (JsMap.get id (documents st)) as [document|]; cbn; [|tauto].
    destruct (negb (String.eqb _ _) && _); cbn; [tauto|].
    destruct (negb (status_is document DRAFT || status_is document REJECTED));
      cbn; tauto.
  - intros document Hdoc Hmay Hstatus. rewrite Hdoc.
    assert (Hguard : negb (String.eqb (Document.ownerUid document) (req_userId req))
                     && negb (Js.opt_includes
                                (participant_list document Participants.editors)
                                (req_userId req)) = false).
    { destruct Hmay as [-> | ->].
      - rewrite String.eqb_refl. reflexivity.
      - apply andb_false_r. }
    assert (Hstate : negb (status_is document DRAFT || status_is document REJECTED)
                     = false).
    { destruct Hstatus as [H|H]; apply status_is_true in H; rewrite H;
        [reflexivity | rewrite orb_true_r; reflexivity]. }
    rewrite Hguard, Hstate. split; reflexivity.
Qed.

Lemma patch_writes_nothing_witness :
  serve (patch_documents (as_user "alice") "d1" (Some "Q3 Report, final") None)
    env0 (store_with REJECTED WF_REJECTED [])
  = (mkResponse 500 (Message "Failed to update document"),
     store_with REJECTED WF_REJECTED []).
Proof.
  pose proof (patch_writes_nothing env0 (store_with REJECTED WF_REJECTED [])
                (as_user "alice") "d1" (Some "Q3 Report, final") None) as H.
  destruct (serve (patch_documents (as_user "alice") "d1"
                     (Some "Q3 Report, final") None)
              env0 (store_with REJECTED WF_REJECTED [])) as [response st'].
  destruct H as (Hst & _ & H500).
  destruct (H500 (report REJECTED)) as [Hr _].
  - reflexivity.
  - left. reflexivity.
  - right. reflexivity.
  - rewrite Hr, Hst. reflexivity.
Defined.

(* ===================================================================== *)
(** ** Office sessions: issue, validate, invalidate *)
(* ===================================================================== *)

Lemma createOfficeLogin_exec (env : Env) (st : MemStorage)
  (login : InsertOfficeLogin) :
  il_sessionToken login <> "" ->
  let newLogin :=
    OfficeLogin.mk (random_id env 0) (il_officeId login)
      (str_or_null (il_userId login)) (Some (clock env 1))
      (str_or_null (il_ipAddress login)) (il_sessionToken login) (Some true)
      (clock env 0 + day_ms) in
  exec (createOfficeLogin login) env st
  = (Ok newLogin,
     with_officeLogins st
       (JsMap.set (il_sessionToken login) newLogin (officeLogins st))).
Proof.
  intros Htoken. unfold exec, createOfficeLogin, bind, generateId, now, modify, ret.
  cbn [mem ticks draws].
  destruct (String.eqb_spec (il_sessionToken login) "") as [E|_];
    [contradiction | reflexivity].
Qed.

(** X10. A session made by createOfficeLogin with a given token is accepted
    under that token at every clock up to 24 hours after it was made (its
    own expiry from the clock, whatever the caller computed) and at no
    clock after that; the session that is returned belongs to the office of
    the login. *)
Theorem session_round_trip (env : Env) (st : MemStorage)
  (login : InsertOfficeLogin) :
  il_sessionToken login <> "" ->
  let st1 := snd (exec (createOfficeLogin login) env st) in
  forall env' : Env,
    (clock env' 0 <= clock env 0 + day_ms ->
     exists session,
       exec (validateOfficeSession (il_sessionToken login)) env' st1
       = (Ok (Some session), st1)
       /\ OfficeLogin.officeId session = il_officeId login
       /\ OfficeLogin.sessionToken session = il_sessionToken login
       /\ OfficeLogin.expiresAt session = clock env 0 + day_ms)
    /\ (clock env 0 + day_ms < clock env' 0 ->
        exec (validateOfficeSession (il_sessionToken login)) env' st1
        = (Ok None, st1)).
Proof.
  intros Htoken st1 env'. unfold st1.
  rewrite (createOfficeLogin_exec env st login Htoken). cbn [snd].
  rewrite validateOfficeSession_exec. cbn [officeLogins with_officeLogins].
  rewrite get_set_same. cbn [inactive OfficeLogin.isActive OfficeLogin.expiresAt].
  split.
  - intros Hle.
    destruct (Z.ltb_spec (clock env 0 + day_ms) (clock env' 0)); [lia|].
    eexists. split; [reflexivity|]. split; [|split]; reflexivity.
  - intros Hlt. apply Z.ltb_lt in Hlt. rewrite Hlt. reflexivity.
Qed.

Lemma session_round_trip_witness :
  exists session,
    exec (validateOfficeSession "tok") (clock_at (1000 + day_ms))
      (snd (exec (createOfficeLogin (mkInsertOfficeLogin "NYC001" None None "tok"))
              (clock_at 1000) empty_store))
    = (Ok (Some session),
       snd (exec (createOfficeLogin (mkInsertOfficeLogin "NYC001" None None "tok"))
              (clock_at 1000) empty_store))
    /\ OfficeLogin.officeId session = "NYC001".
Proof.
  destruct (session_round_trip (clock_at 1000) empty_store
              (mkInsertOfficeLogin "NYC001" None None "tok"))
    with (env' := clock_at (1000 + day_ms)) as [Hvalid _].
  - discriminate.
  - destruct Hvalid as (session & Hrun & Hoffice & _).
    + cbn. lia.
    + exists session. split; [exact Hrun | exact Hoffice].
Defined.

Lemma invalidateOfficeSession_exec (env : Env) (st : MemStorage) (token : string) :
  exec (invalidateOfficeSession token) env st
  = (Ok tt,
     match JsMap.get token (officeLogins st) with
     | None => st
     | Some login =>
         with_officeLogins st
           (JsMap.set token
              (OfficeLogin.mk (OfficeLogin.id login) (OfficeLogin.officeId login)
                 (OfficeLogin.userId login) (OfficeLogin.loginTime login)
                 (OfficeLogin.ipAddress login) (OfficeLogin.sessionToken login)
                 (Some false) (OfficeLogin.expiresAt login))
              (officeLogins st))
     end).
Proof.
  unfold exec, invalidateOfficeSession, bind, read, ret, modify. cbn.
  destruct (JsMap.get token (officeLogins st)); reflexivity.
Qed.

Lemma validate_after_invalidate (env env' : Env) (st : MemStorage)
  (token : string) :
  fst (exec (validateOfficeSession token) env'
         (snd (exec (invalidateOfficeSession token) env st)))
  = Ok None.
Proof.
  rewrite invalidateOfficeSession_exec, validateOfficeSession_exec. cbn [fst snd].
  destruct (JsMap.get token (officeLogins st)) as [login|] eqn:Hget.
  - cbn [officeLogins with_officeLogins]. rewrite get_set_same. reflexivity.
  - rewrite Hget. reflexivity.
Qed.

(** X11. After invalidateOfficeSession the token is refused at every clock;
    every other token is answered as before; and the session is kept in the
    store (deactivated, not deleted): the stored tokens are the same. *)
Theorem invalidated_session_is_refused (env : Env) (st : MemStorage)
  (token : string) :
  let st1 := snd (exec (invalidateOfficeSession token) env st) in
  (forall env', fst (exec (validateOfficeSession token) env' st1) = Ok None)
  /\ (forall other env',
        other <> token ->
        fst (exec (validateOfficeSession other) env' st1)
        = fst (exec (validateOfficeSession other) env' st))
  /\ JsMap.keys (officeLogins st1) = JsMap.keys (officeLogins st).
Proof.
  cbv zeta. split; [intros env'; apply validate_after_invalidate|].
  rewrite invalidateOfficeSession_exec. cbn [snd].
  destruct (JsMap.get token (officeLogins st)) as [login|] eqn:Hget.
  - split.
    + intros other env' Hother. rewrite !validateOfficeSession_exec.
      cbn [fst officeLogins with_officeLogins].
      rewrite get_set_other by congruence. reflexivity.
    + cbn [officeLogins with_officeLogins]. eapply keys_set_present. exact Hget.
  - split; reflexivity.
Qed.

Lemma invalidated_session_is_refused_witness :
  fst (exec (validateOfficeSession "tok") (clock_at 1000)
         (snd (exec (invalidateOfficeSession "other") (clock_at 1000) office_store)))
  = fst (exec (validateOfficeSession "tok") (clock_at 1000) office_store).
Proof.
  destruct (invalidated_session_is_refused (clock_at 1000) office_store "other")
    as (_ & Hothers & _).
  apply Hothers. discriminate.
Defined.

(* ===================================================================== *)
(** ** Office login and logout *)
(* ===================================================================== *)

Lemma truthy_str (s : string) : Js.truthy (Js.Str s) = true <-> s <> "".
Proof.
  cbn. destruct (String.eqb_spec s ""); cbn; split; intros; congruence.
Qed.

(** The session that an accepted login stores. *)
Lemma post_office_login_accepted (env : Env) (st : MemStorage)
  (offices : JsMap.t Office.t) (ip : option string) (c p : string)
  (office : Office.t) :
  c <> "" -> p <> "" ->
  validateOfficeLogin c p offices = Some office ->
  let session :=
    OfficeLogin.mk (random_id env 1) (Office.officeId office) None
      (Some (clock env 2)) (str_or_null ip) (issued_token env) (Some true)
      (clock env 1 + day_ms) in
  exec (post_office_login offices ip (Js.Str c) (Js.Str p)) env st
  = (Ok (mkLoginResponse 200
           (LoginSuccessful (issued_token env) (Office.id office)
              (Office.officeId office) (Office.name office)
              (Office.description office))),
     with_officeLogins st
       (JsMap.set (issued_token env) session (officeLogins st))).
Proof.
  intros Hc Hp Hvalid. apply truthy_str in Hc. apply truthy_str in Hp.
  unfold exec, post_office_login. rewrite Hc, Hp, Hvalid. cbn [negb orb].
  unfold bind, generateId, now, createOfficeLogin, modify, ret, issued_token.
  cbn [mem ticks draws il_sessionToken il_officeId il_userId il_ipAddress
         str_or_null].
  destruct (String.eqb (random_id env 0) ""); reflexivity.
Qed.

(** X12. A login with the code and the password of an office answers 200
    with a token; at every clock up to 24 hours after the login the session
    middleware lets that token through with a session of that office; and a
    logout with the token answers 200, after which the middleware refuses
    the token at every clock. *)
Theorem office_login_round_trip (env : Env) (st : MemStorage)
  (offices : JsMap.t Office.t) (ip : option string) (c p : string)
  (office : Office.t) :
  c <> "" -> p <> "" ->
  validateOfficeLogin c p offices = Some office ->
  issued_token env <> "" ->
  let token := issued_token env in
  let st1 := snd (exec (post_office_login offices ip (Js.Str c) (Js.Str p)) env st) in
  fst (exec (post_office_login offices ip (Js.Str c) (Js.Str p)) env st)
  = Ok (mkLoginResponse 200
          (LoginSuccessful token (Office.id office) (Office.officeId office)
             (Office.name office) (Office.description office)))
  /\ forall env' : Env,
       clock env' 0 <= clock env 1 + day_ms ->
       (exists session,
          check_session (Some token) None env' st1 = Some (Next session)
          /\ OfficeLogin.officeId session = Office.officeId office)
       /\ fst (exec (post_office_logout (Some token) None) env' st1)
          = Ok (mkResponse 200 (Message "Logged out successfully"))
       /\ forall env'' : Env,
            check_session (Some token) None env''
              (snd (exec (post_office_logout (Some token) None) env' st1))
            = Some (Refused (mkResponse 401
                               (Message "Invalid or expired office session"))).
Proof.
  intros Hc Hp Hvalid Htoken. cbv zeta.
  rewrite (post_office_login_accepted env st offices ip c p office Hc Hp Hvalid).
  cbn [fst snd]. split; [reflexivity|]. intros env' Hle.
  set (session := OfficeLogin.mk (random_id env 1) (Office.officeId office) None
                    (Some (clock env 2)) (str_or_null ip) (issued_token env)
                    (Some true) (clock env 1 + day_ms)).
  set (st1 := with_officeLogins st
                (JsMap.set (issued_token env) session (officeLogins st))).
  assert (Hmw : forall e s,
             check_session (Some (issued_token env)) None e s
             = match fst (exec (validateOfficeSession (issued_token env)) e s) with
               | Ok (Some l) => Some (Next l)
               | Ok None =>
                   Some (Refused (mkResponse 401
                                    (Message "Invalid or expired office session")))
               | Throw _ => None
               end).
  { intros e s. unfold check_session, validateOfficeSession_mw, session_token.
    cbn [str_or_null].
    destruct (String.eqb_spec (issued_token env) "") as [E|_]; [contradiction|].
    cbn [str_or_null].
    destruct (String.eqb_spec (issued_token env) "") as [E|_]; [contradiction|].
    unfold exec, bind.
    destruct (validateOfficeSession (issued_token env) e (mkHeap s 0 0))
      as [[[l|]|x] h']; reflexivity. }
  assert (Hvalidate :
    exec (validateOfficeSession (issued_token env)) env' st1 = (Ok (Some session), st1)).
  { rewrite validateOfficeSession_exec. unfold st1.
    cbn [officeLogins with_officeLogins]. rewrite get_set_same.
    cbn [inactive session OfficeLogin.isActive OfficeLogin.expiresAt].
    destruct (Z.ltb_spec (clock env 1 + day_ms) (clock env' 0)); [lia|].
    reflexivity. }
  assert (Hlogout :
    exec (post_office_logout (Some (issued_token env)) None) env' st1
    = (Ok (mkResponse 200 (Message "Logged out successfully")),
       snd (exec (invalidateOfficeSession (issued_token env)) env' st1))).
  { unfold exec in Hvalidate.
    destruct (validateOfficeSession (issued_token env) env' (mkHeap st1 0 0))
      as [r h1] eqn:Hrun.
    injection Hvalidate as -> Hmem.
    rewrite invalidateOfficeSession_exec. cbn [snd].
    unfold exec, post_office_logout, validateOfficeSession_mw, session_token.
    cbn [str_or_null].
    destruct (String.eqb_spec (issued_token env) "") as [E|_]; [contradiction|].
    cbn [str_or_null].
    destruct (String.eqb_spec (issued_token env) "") as [E|_]; [contradiction|].
    unfold bind at 1. unfold bind at 1. rewrite Hrun. cbn [ret].
    destruct h1 as [m1 t1 d1]. cbn [mem] in Hmem. subst m1.
    unfold try_catch, invalidateOfficeSession, read, ret, modify, bind.
    cbn [session OfficeLogin.sessionToken mem ticks draws].
    destruct (JsMap.get (issued_token env) (officeLogins st1)); reflexivity. }
  split; [|split].
  - exists session. rewrite Hmw, Hvalidate. split; reflexivity.
  - rewrite Hlogout. reflexivity.
  - intros env''. rewrite Hlogout. cbn [snd]. rewrite Hmw.
    rewrite validate_after_invalidate. reflexivity.
Qed.

Lemma office_login_round_trip_witness :
  exists session,
    check_session (Some "id0") None (clock_at 2000)
      (snd (exec (post_office_login sample_offices None (Js.Str "NYC001")
                    (Js.Str "secure123")) env0 empty_store))
    = Some (Next session)
    /\ OfficeLogin.officeId session = "NYC001".
Proof.
  destruct (office_login_round_trip env0 empty_store sample_offices None
              "NYC001" "secure123" nyc) as [_ Hlater];
    try discriminate; try reflexivity.
  destruct (Hlater (clock_at 2000)) as [Hsession _].
  - cbn. lia.
  - exact Hsession.
Defined.



Lemma find_app_one {A} (p : A -> bool) (l : list A) (x : A) :
  find p (l ++ [x])
  = match find p l with
    | Some y => Some y
    | None => if p x then Some x else None
    end.
Proof.
  induction l as [|a l IH]; cbn; [reflexivity|].
  destruct (p a); [reflexivity | exact IH].
Qed.

Lemma values_set_fresh {V} (k : string) (v : V) (m : JsMap.t V) :
  JsMap.get k m = None ->
  JsMap.values (JsMap.set k v m) = (JsMap.values m ++ [v])%list.
Proof.
  intros H. rewrite (set_fresh k v m H). unfold JsMap.values.
  rewrite map_app. reflexivity.
Qed.

(** X14. An office made by createOffice under a new id is found by its
    office id (unless an earlier office has the same one), but it is stored
    without code and password: whatever code and password are tried, the
    office login answers as it did before the office was made. *)
Theorem created_office_has_no_login (office : InsertOffice) (id : string)
  (offices : JsMap.t Office.t) :
  JsMap.get id offices = None ->
  let (newOffice, offices') := createOffice office id offices in
  JsMap.get id offices' = Some newOffice
  /\ (getOfficeByOfficeId (io_officeId office) offices = None ->
      getOfficeByOfficeId (io_officeId office) offices' = Some newOffice)
  /\ (forall code, getOfficeByCode code offices' = getOfficeByCode code offices)
  /\ (forall code password,
        validateOfficeLogin code password offices'
        = validateOfficeLogin code password offices).
Proof.
  intros Hfresh. unfold createOffice.
  assert (Hcode : forall code,
             getOfficeByCode code
               (JsMap.set id
                  (Office.mk id (io_officeId office) (io_name office)
                     (str_or_null (io_description office)) None None
                     (Js.or_empty (io_adminUsers office))
                     (Js.or_empty (io_members office))
                     (str_or_null (io_departmentId office))) offices)
             = getOfficeByCode code offices).
  { intros code. unfold getOfficeByCode.
    rewrite (values_set_fresh _ _ _ Hfresh), find_app_one.
    destruct (find (has_code code) (JsMap.values offices)); reflexivity. }
  split; [apply get_set_same|]. split; [|split].
  - intros Hnone. unfold getOfficeByOfficeId in *.
    rewrite (values_set_fresh _ _ _ Hfresh), find_app_one, Hnone.
    cbn [Office.officeId]. rewrite String.eqb_refl. reflexivity.
  - exact Hcode.
  - intros code password. unfold validateOfficeLogin. rewrite Hcode. reflexivity.
Qed.

Lemma created_office_has_no_login_witness :
  validateOfficeLogin "BOS004" "harbour1"
    (snd (createOffice
            (mkInsertOffice "BOS004" "Boston Office" None "BOS004" "harbour1"
               None None None) "o2" sample_offices))
  = None.
Proof.
  pose proof (created_office_has_no_login
                (mkInsertOffice "BOS004" "Boston Office" None "BOS004" "harbour1"
                   None None None) "o2" sample_offices eq_refl) as H.
  cbv beta iota zeta delta [createOffice] in H.
  destruct H as (_ & _ & _ & Hlogin). cbn [snd createOffice].
  unfold createOffice. cbn [snd]. rewrite Hlogin. reflexivity.
Defined.

(* ===================================================================== *)
(** ** Users: upsert and office assignment *)
(* ===================================================================== *)

Lemma get_none_set_present {V} (k k0 : string) (v : V) (m : JsMap.t V) :
  JsMap.get k0 m = None -> k <> k0 -> JsMap.get k0 (JsMap.set k v m) = None.
Proof. intros Hnone Hne. rewrite get_set_other; assumption. Qed.

(** Replacing the value of a key by one with the same id keeps the map well
    keyed. *)
Lemma well_keyed_set {V} (id : V -> string) (k : string) (v v0 : V)
  (m : JsMap.t V) :
  well_keyed id m = true -> JsMap.get k m = Some v0 -> id v = k ->
  well_keyed id (JsMap.set k v m) = true.
Proof.
  intros Hwk Hget Hid. induction m as [|[k' v'] rest IH]; [discriminate|].
  apply well_keyed_cons in Hwk as (-> & Hnew & Hrest). cbn in Hget |- *.
  destruct (String.eqb_spec (id v') k) as [E|Hne].
  - cbn. rewrite Hid, String.eqb_refl, Hrest, andb_true_r. cbn.
    apply negb_true_iff, has_false. rewrite <- E. exact Hnew.
  - cbn. rewrite String.eqb_refl, (IH Hrest Hget), andb_true_r. cbn.
    apply negb_true_iff, has_false. apply get_none_set_present; [exact Hnew|].
    congruence.
Qed.

(** X15. upsertUser never reads the id it is given: the user is stored under
    the id of the first stored user with the same email, or else under a new
    id.  The stored user has the roles of the input (none when the input has
    none) and no office; it can be fetched under its id, and every other id
    is as before. *)
Theorem upsertUser_identity (userData : UpsertUser) (newId : string)
  (us : JsMap.t User.t) :
  let (user, us') := upsertUser userData newId us in
  JsMap.get (User.id user) us' = Some user
  /\ (User.id user = newId
      \/ exists u, In u (JsMap.values us)
                   /\ same_email (User.email u) (up_email userData) = true
                   /\ User.id user = User.id u)
  /\ User.roles user = Some (Js.or_empty (up_roles userData))
  /\ User.officeId user = None
  /\ (forall k, k <> User.id user -> JsMap.get k us' = JsMap.get k us)
  /\ (forall other : option string,
        upsertUser (mkUpsertUser other (up_email userData) (up_roles userData))
          newId us
        = upsertUser userData newId us).
Proof.
  unfold upsertUser. cbn [up_email up_roles User.id User.roles User.officeId].
  split; [apply get_set_same|]. split; [|split; [|split; [|split]]];
    try reflexivity.
  - destruct (find _ _) as [u|] eqn:Hfind; [|left; reflexivity].
    destruct (String.eqb (User.id u) ""); [left; reflexivity|].
    right. apply find_some in Hfind as [Hin Hmail]. exists u. auto.
  - intros k Hk. apply get_set_other. congruence.
Qed.

(** X16. An office assignment does not survive an upsert: when a user who
    was assigned to an office is upserted again by email (as at the next
    login), the stored user keeps the id but has no office, and the members
    of the office no longer include that id. *)
Theorem assignment_lost_on_upsert (us : JsMap.t User.t) (uid officeId e : string)
  (u : User.t) (userData : UpsertUser) (newId : string) :
  well_keyed User.id us = true ->
  uid <> "" ->
  JsMap.get uid us = Some u ->
  up_email userData = Js.Str e ->
  find (fun x => same_email (User.email x) (Js.Str e)) (JsMap.values us) = Some u ->
  let us1 := snd (assignUserToOffice uid officeId us) in
  let (user2, us2) := upsertUser userData newId us1 in
  (exists member, In member (getOfficeMembers officeId us1) /\ User.id member = uid)
  /\ User.id user2 = uid
  /\ JsMap.get uid us2 = Some user2
  /\ User.officeId user2 = None
  /\ forall member, In member (getOfficeMembers officeId us2) -> User.id member <> uid.
Proof.
  intros Hwk Huid Hget Hmail Hfind.
  pose proof (well_keyed_key User.id _ _ _ Hwk Hget) as Hid.
  unfold assignUserToOffice. rewrite Hget. cbn [snd].
  set (u1 := User.mk (User.id u) (User.email u) (User.roles u) (Some officeId)).
  assert (Hkey1 : well_keyed User.id (JsMap.set uid u1 us) = true).
  { eapply well_keyed_set; [exact Hwk | exact Hget | symmetry; exact Hid]. }
  assert (Hfind1 :
    find (fun x => same_email (User.email x) (Js.Str e))
         (JsMap.values (JsMap.set uid u1 us)) = Some u1).
  { rewrite Hid.
    apply (find_set User.id (fun x => same_email (User.email x) (Js.Str e)) u u1);
      [exact Hwk | exact Hfind |].
    apply find_some in Hfind. apply Hfind. }
  unfold upsertUser. rewrite Hmail, Hfind1. cbn [User.id u1].
  rewrite <- Hid.
  destruct (String.eqb_spec uid "") as [E|_]; [contradiction|].
  split; [|split; [|split; [|split]]]; try reflexivity.
  - exists u1. split; [|symmetry; exact Hid].
    unfold getOfficeMembers. apply filter_In. split.
    + apply in_values_set.
    + unfold in_office. cbn. apply String.eqb_refl.
  - apply get_set_same.
  - intros member Hmember Hsame.
    unfold getOfficeMembers in Hmember. apply filter_In in Hmember as [Hin Hoffice].
    assert (Hkey2 :
      well_keyed User.id
        (JsMap.set uid
           (User.mk uid (email_or_null (Js.Str e))
              (Some (Js.or_empty (up_roles userData))) None)
           (JsMap.set uid u1 us)) = true).
    { eapply well_keyed_set; [exact Hkey1 | apply get_set_same | reflexivity]. }
    apply (well_keyed_in_get User.id _ _ Hkey2) in Hin.
    rewrite Hsame, get_set_same in Hin. injection Hin as <-.
    discriminate.
Qed.

Lemma assignment_lost_on_upsert_witness :
  let us0 := [("u1", User.mk "u1" (Some "ann@company.com") (Some [OFFICER]) None)] in
  let us1 := snd (assignUserToOffice "u1" "NYC001" us0) in
  let user2 :=
    fst (upsertUser (mkUpsertUser (Some "sub-1") (Js.Str "ann@company.com") None)
           "fresh" us1) in
  User.id user2 = "u1" /\ User.officeId user2 = None.
Proof.
  pose proof (assignment_lost_on_upsert
                [("u1", User.mk "u1" (Some "ann@company.com") (Some [OFFICER]) None)]
                "u1" "NYC001" "ann@company.com"
                (User.mk "u1" (Some "ann@company.com") (Some [OFFICER]) None)
                (mkUpsertUser (Some "sub-1") (Js.Str "ann@company.com") None)
                "fresh") as H.
  cbv zeta in H |- *.
  destruct (upsertUser _ _ _) as [user2 us2].
  destruct H as (_ & Hid & _ & Hoffice & _);
    try reflexivity; try discriminate.
  split; assumption.
Defined.

Lemma upsertUser_identity_witness :
  JsMap.get "alice"
    (snd (upsertUser (mkUpsertUser (Some "sub-9") (Js.Str "new@company.com") None)
            "fresh" sample_users))
  = Some alice.
Proof.
  pose proof (upsertUser_identity
                (mkUpsertUser (Some "sub-9") (Js.Str "new@company.com") None)
                "fresh" sample_users) as H.
  destruct (upsertUser _ _ _) as [user us'] eqn:Hrun.
  destruct H as (_ & _ & _ & _ & Hothers & _).
  cbn [snd]. rewrite Hothers; [reflexivity|].
  injection Hrun as <- _. discriminate.
Defined.

(* ===================================================================== *)
(** ** Versions: order of the list and the latest one *)
(* ===================================================================== *)

Section StableSort.

Context {A : Type} (key : A -> Z).

Lemma filter_insert_desc (t : Z) (x : A) (l : list A) :
  filter (fun y => key y =? t) (insert_desc key x l)
  = filter (fun y => key y =? t) (x :: l).
Proof.
  induction l as [|a l IH]; [reflexivity|].
  cbn [insert_desc]. destruct (Z.ltb_spec (key x) (key a)) as [Hlt|Hge];
    [|reflexivity].
  cbn [filter] in IH |- *. rewrite IH.
  destruct (Z.eqb_spec (key a) t) as [Ea|_]; [|reflexivity].
  destruct (Z.eqb_spec (key x) t) as [Ex|_]; [lia | reflexivity].
Qed.

(** Among equal keys the sort keeps the order of its input. *)
Lemma filter_sort_desc (t : Z) (l : list A) :
  filter (fun y => key y =? t) (sort_desc key l)
  = filter (fun y => key y =? t) l.
Proof.
  induction l as [|a l IH]; [reflexivity|].
  cbn [sort_desc]. rewrite filter_insert_desc. cbn [filter]. rewrite IH.
  reflexivity.
Qed.

Lemma length_insert_desc (x : A) (l : list A) :
  List.length (insert_desc key x l) = S (List.length l).
Proof.
  induction l as [|a l IH]; [reflexivity|]. cbn [insert_desc].
  destruct (key x <? key a); cbn; [rewrite IH|]; reflexivity.
Qed.

Lemma length_sort_desc (l : list A) :
  List.length (sort_desc key l) = List.length l.
Proof.
  induction l as [|a l IH]; [reflexivity|]. cbn [sort_desc].
  rewrite length_insert_desc, IH. reflexivity.
Qed.

Lemma descending_tail (x : A) (l : list A) :
  descending key (x :: l) -> descending key l.
Proof. intros H. inversion H. assumption. Qed.

Lemma descending_skipn (n : nat) (l : list A) :
  descending key l -> descending key (skipn n l).
Proof.
  revert l. induction n as [|n IH]; intros l H; [exact H|].
  destruct l as [|a l]; [exact H|]. cbn. apply IH. eapply descending_tail, H.
Qed.

Lemma in_firstn (n : nat) (x : A) (l : list A) : In x (firstn n l) -> In x l.
Proof.
  revert l. induction n as [|n IH]; intros l; [intros []|].
  destruct l as [|a l]; [intros []|]. cbn. intros [->|H]; auto.
Qed.

Lemma in_skipn (n : nat) (x : A) (l : list A) : In x (skipn n l) -> In x l.
Proof.
  revert l. induction n as [|n IH]; intros l; [auto|].
  destruct l as [|a l]; [intros []|]. cbn. auto.
Qed.

Lemma descending_firstn (n : nat) (l : list A) :
  descending key l -> descending key (firstn n l).
Proof.
  revert l. induction n as [|n IH]; intros l H; [constructor|].
  destruct l as [|a l]; [constructor|]. cbn. inversion H as [|? ? Hle Hl]; subst.
  constructor; [|apply IH; exact Hl].
  intros y Hy. apply Hle. eapply in_firstn, Hy.
Qed.

End StableSort.

(** X17. getDocumentVersions returns exactly the stored versions of the
    document, each once, newest first by createdAt, and versions with the
    same createdAt in the order in which they were stored. *)
Theorem getDocumentVersions_order (env : Env) (st : MemStorage) (docId : string) :
  let versions := versions_of docId st in
  exec (getDocumentVersions docId) env st = (Ok versions, st)
  /\ (forall v, In v versions
                <-> In v (JsMap.values (documentVersions st))
                    /\ DocumentVersion.docId v = docId)
  /\ List.length versions = List.length (stored_versions docId st)
  /\ descending created_key versions
  /\ forall t : Z,
       filter (fun v => created_key v =? t) versions
       = filter (fun v => created_key v =? t) (stored_versions docId st).
Proof.
  cbv zeta. unfold versions_of, stored_versions.
  split; [reflexivity|]. split; [|split; [|split]].
  - intros v. rewrite in_sort_desc, filter_In, String.eqb_eq. reflexivity.
  - apply length_sort_desc.
  - apply sort_desc_descending.
  - intros t. apply (filter_sort_desc created_key).
Qed.

Lemma latest_version_head (docId : string) (st : MemStorage) :
  latest_version docId st = hd_error (versions_of docId st).
Proof. reflexivity. Qed.

Lemma stored_after_create (env : Env) (st : MemStorage)
  (version : InsertDocumentVersion) :
  JsMap.get (random_id env 0) (documentVersions st) = None ->
  exists created,
    exec (createDocumentVersion version) env st
    = (Ok created,
       with_documentVersions st
         (documentVersions st ++ [(random_id env 0, created)])%list)
    /\ DocumentVersion.id created = random_id env 0
    /\ DocumentVersion.docId created = iv_docId version
    /\ created_key created = clock env 0
    /\ stored_versions (iv_docId version)
         (with_documentVersions st
            (documentVersions st ++ [(random_id env 0, created)])%list)
       = (stored_versions (iv_docId version) st ++ [created])%list.
Proof.
  intros Hfresh. eexists. split; [|split; [|split; [|split]]].
  - unfold exec. rewrite createDocumentVersion_run. cbn [mem ticks draws].
    rewrite (set_fresh _ _ _ Hfresh). reflexivity.
  - reflexivity.
  - reflexivity.
  - reflexivity.
  - unfold stored_versions, JsMap.values. cbn [documentVersions with_documentVersions].
    rewrite map_app, filter_app. cbn [map snd filter DocumentVersion.docId].
    rewrite String.eqb_refl. reflexivity.
Qed.

(** X18. After createDocumentVersion stores a version under a new id,
    getLatestVersion returns that version when its clock is later than the
    createdAt of every stored version of the document; when some stored
    version of the document is as late or later, getLatestVersion returns a
    version that was stored before, not the new one. *)
Theorem latest_after_create (env : Env) (st : MemStorage)
  (version : InsertDocumentVersion) :
  JsMap.get (random_id env 0) (documentVersions st) = None ->
  exists (created : DocumentVersion.t) (st1 : MemStorage),
    exec (createDocumentVersion version) env st = (Ok created, st1)
    /\ ((forall v, In v (stored_versions (iv_docId version) st) ->
                   created_key v < clock env 0) ->
        latest_version (iv_docId version) st1 = Some created)
    /\ ((exists v, In v (stored_versions (iv_docId version) st)
                   /\ clock env 0 <= created_key v) ->
        exists v, latest_version (iv_docId version) st1 = Some v
                  /\ In v (stored_versions (iv_docId version) st)).
Proof.
  intros Hfresh.
  destruct (stored_after_create env st version Hfresh)
    as (created & Hrun & Hid & Hdoc & Hkey & Hstored).
  eexists _, _. split; [exact Hrun|]. rewrite latest_version_head.
  unfold versions_of. fold (stored_versions (iv_docId version)
    (with_documentVersions st (documentVersions st ++ [(random_id env 0, created)])%list)).
  rewrite Hstored.
  set (input := (stored_versions (iv_docId version) st ++ [created])%list).
  destruct (sort_desc created_key input) as [|h rest] eqn:Hsort.
  { apply (f_equal (@List.length _)) in Hsort.
    rewrite length_sort_desc in Hsort. unfold input in Hsort.
    rewrite length_app in Hsort. cbn in Hsort. lia. }
  destruct (sort_desc_head created_key input h rest Hsort) as [Hin Hmax].
  change (fun v => getTime_or_0 (DocumentVersion.createdAt v)) with created_key.
  rewrite Hsort. cbn [hd_error]. split.
  - intros Hlater.
    unfold input in Hin. apply in_app_or in Hin as [Hold|[<-|[]]]; [|reflexivity].
    exfalso. specialize (Hlater h Hold).
    assert (created_key created <= created_key h)
      by (apply Hmax; unfold input; apply in_or_app; right; left; reflexivity).
    lia.
  - intros (v0 & Hv0 & Hlate). exists h. split; [reflexivity|].
    pose proof (filter_sort_desc created_key (created_key h) input) as Hstable.
    rewrite Hsort in Hstable. cbn [filter] in Hstable.
    rewrite Z.eqb_refl in Hstable. unfold input in Hstable.
    rewrite filter_app in Hstable.
    destruct (filter (fun y => created_key y =? created_key h)
                (stored_versions (iv_docId version) st)) as [|f fs] eqn:Hold.
    + exfalso.
      assert (Hv0max : created_key v0 <= created_key h)
        by (apply Hmax; unfold input; apply in_or_app; left; exact Hv0).
      assert (Hnew : created_key h <= created_key created).
      { cbn [app filter] in Hstable.
        destruct (Z.eqb_spec (created_key created) (created_key h)); [lia|].
        discriminate. }
      assert (Hv0in : In v0 (filter (fun y => created_key y =? created_key h)
                               (stored_versions (iv_docId version) st))).
      { apply filter_In. split; [exact Hv0|]. apply Z.eqb_eq. lia. }
      rewrite Hold in Hv0in. exact Hv0in.
    + cbn [app] in Hstable. injection Hstable as <- _.
      assert (Hf : In h (filter (fun y => created_key y =? created_key h)
                           (stored_versions (iv_docId version) st)))
        by (rewrite Hold; left; reflexivity).
      apply filter_In in Hf. apply Hf.
Qed.

Lemma latest_after_create_witness :
  exists created st1,
    exec (createDocumentVersion
            (mkInsertDocumentVersion "d1" "2.0" "storage/documents/d1/b.pdf" None
               "alice" None "b.pdf" None None)) env1 store_after_upload
    = (Ok created, st1)
    /\ latest_version "d1" st1 = Some created.
Proof.
  destruct (latest_after_create env1 store_after_upload
              (mkInsertDocumentVersion "d1" "2.0" "storage/documents/d1/b.pdf" None
                 "alice" None "b.pdf" None None))
    as (created & st1 & Hrun & Hlater & _).
  - reflexivity.
  - exists created, st1. split; [exact Hrun|]. apply Hlater.
    intros v [<-|[]]. cbn. lia.
Defined.

(* ===================================================================== *)
(** ** The task list of a user *)
(* ===================================================================== *)

Lemma in_opt_filter {A B} (o : option B) (p : B -> A -> bool) (l : list A) (x : A) :
  In x match o with
       | Some a => filter (p a) l
       | None => l
       end
  <-> In x l /\ forall a, o = Some a -> p a x = true.
Proof.
  destruct o as [a|].
  - rewrite filter_In. split.
    + intros [Hin Hp]. split; [exact Hin|]. intros a' E. injection E as <-. exact Hp.
    + intros [Hin Hp]. split; [exact Hin | apply Hp; reflexivity].
  - split; [intros H; split; [exact H | discriminate] | tauto].
Qed.

Lemma TaskState_eqb_eq (a b : TaskState) : TaskState_eqb a b = true <-> a = b.
Proof. destruct a, b; cbn; split; congruence. Qed.

Lemma TaskType_eqb_eq (a b : TaskType) : TaskType_eqb a b = true <-> a = b.
Proof. destruct a, b; cbn; split; congruence. Qed.

(** X19. getTasks writes nothing and returns stored tasks only, every one
    of which passes each filter that is given (assigned to the uid, in the
    state, of the type), newest first by createdAt, and at most [limit] of
    them; without offset and limit it returns every stored task that passes
    the filters. *)
Theorem getTasks_filters (env : Env) (st : MemStorage) (filters : TaskFilters) :
  let found := tasks_matching filters st in
  exec (getTasks filters) env st = (Ok found, st)
  /\ (forall task,
        In task found ->
        In task (JsMap.values (tasks st))
        /\ (forall uid, str_or_null (f_assignedTo filters) = Some uid ->
                        Js.opt_includes (Task.assignedTo task) uid = true)
        /\ (forall s, f_state filters = Some s -> Task.state task = Some s)
        /\ (forall ty, f_type filters = Some ty -> Task.type task = ty))
  /\ descending task_key found
  /\ (forall n, f_limit filters = Some (S n) -> (List.length found <= S n)%nat)
  /\ (f_offset filters = None -> f_limit filters = None ->
      forall task,
        In task (JsMap.values (tasks st)) ->
        (forall uid, str_or_null (f_assignedTo filters) = Some uid ->
                     Js.opt_includes (Task.assignedTo task) uid = true) ->
        (forall s, f_state filters = Some s -> Task.state task = Some s) ->
        (forall ty, f_type filters = Some ty -> Task.type task = ty) ->
        In task found).
Proof.
  cbv zeta. split; [reflexivity|]. unfold tasks_matching.
  set (assigned := match str_or_null (f_assignedTo filters) with
                   | Some uid =>
                       filter (fun t => Js.opt_includes (Task.assignedTo t) uid)
                         (JsMap.values (tasks st))
                   | None => JsMap.values (tasks st)
                   end).
  set (stated := match f_state filters with
                 | Some s => filter (task_has_state s) assigned
                 | None => assigned
                 end).
  set (typed := match f_type filters with
                | Some ty => filter (fun t => TaskType_eqb (Task.type t) ty) stated
                | None => stated
                end).
  change (fun t => getTime_or_0 (Task.createdAt t)) with task_key.
  set (sorted := sort_desc task_key typed).
  set (skipped := match f_offset filters with
                  | Some (S n) => skipn (S n) sorted
                  | _ => sorted
                  end).
  assert (Hassigned : forall x, In x assigned
            <-> In x (JsMap.values (tasks st))
                /\ forall uid, str_or_null (f_assignedTo filters) = Some uid ->
                               Js.opt_includes (Task.assignedTo x) uid = true).
  { intros x.
    apply (in_opt_filter (str_or_null (f_assignedTo filters))
             (fun uid t => Js.opt_includes (Task.assignedTo t) uid)). }
  assert (Hstated : forall x, In x stated
            <-> In x assigned
                /\ forall s, f_state filters = Some s -> Task.state x = Some s).
  { intros x. unfold stated.
    rewrite (in_opt_filter (f_state filters) task_has_state).
    split; intros [Hin Hs]; (split; [exact Hin|]); intros s E;
      specialize (Hs s E); unfold task_has_state in *;
      destruct (Task.state x) as [s'|].
    - apply TaskState_eqb_eq in Hs. congruence.
    - discriminate.
    - injection Hs as ->. apply TaskState_eqb_eq. reflexivity.
    - discriminate. }
  assert (Htyped : forall x, In x typed
            <-> In x stated
                /\ forall ty, f_type filters = Some ty -> Task.type x = ty).
  { intros x. unfold typed.
    rewrite (in_opt_filter (f_type filters)
               (fun ty t => TaskType_eqb (Task.type t) ty)).
    split; intros [Hin Hs]; (split; [exact Hin|]); intros ty E;
      specialize (Hs ty E); apply TaskType_eqb_eq; exact Hs. }
  assert (Hskipped_in : forall x, In x skipped -> In x sorted).
  { intros x. unfold skipped. destruct (f_offset filters) as [[|n]|]; auto.
    apply in_skipn. }
  assert (Hskipped_desc : descending task_key skipped).
  { unfold skipped. destruct (f_offset filters) as [[|n]|];
      try apply descending_skipn; apply sort_desc_descending. }
  split; [|split; [|split]].
  - intros task Hin.
    assert (Hsorted : In task sorted).
    { apply Hskipped_in. destruct (f_limit filters) as [[|n]|]; auto.
      eapply in_firstn, Hin. }
    apply in_sort_desc, Htyped in Hsorted as [Hin2 Hty].
    apply Hstated in Hin2 as [Hin1 Hs]. apply Hassigned in Hin1 as [Hin0 Ha].
    auto.
  - destruct (f_limit filters) as [[|n]|]; try exact Hskipped_desc.
    apply descending_firstn. exact Hskipped_desc.
  - intros n ->. apply firstn_le_length.
  - intros Hoff Hlim task Hin Ha Hs Hty. rewrite Hlim. unfold skipped.
    rewrite Hoff. apply in_sort_desc, Htyped. split; [|exact Hty].
    apply Hstated. split; [|exact Hs]. apply Hassigned. auto.
Qed.

Lemma getTasks_filters_witness :
  (List.length
     (tasks_matching (mkTaskFilters None (Some OPEN) None (Some 1%nat) None)
        approval_store) <= 1)%nat.
Proof.
  destruct (getTasks_filters env0 approval_store
              (mkTaskFilters None (Some OPEN) None (Some 1%nat) None))
    as (_ & _ & _ & Hlimit & _).
  apply (Hlimit 0%nat). reflexivity.
Defined.

(* ===================================================================== *)
(** ** Reading the audit log *)
(* ===================================================================== *)

(** X20. getAuditLogs returns the entries of the target, newest first.  An
    entry written by createAuditLog is returned for its target, together
    with every entry that was returned before, and for no other target. *)
Theorem audit_log_round_trip (env : Env) (st : MemStorage) (log : InsertAuditLog) :
  exists (e : AuditLog.t) (st1 : MemStorage),
    exec (createAuditLog log) env st = (Ok e, st1)
    /\ In e (audit_logs_of (al_target_id log) (al_target_type log) st1)
    /\ (forall id ty x,
          In x (audit_logs_of id ty st1)
          <-> In x (audit_logs_of id ty st)
              \/ (x = e /\ id = al_target_id log /\ ty = al_target_type log))
    /\ (forall id ty,
          descending (fun l => getTime_or_0 (AuditLog.timestamp l))
            (audit_logs_of id ty st1))
    /\ exec (getAuditLogs (al_target_id log) (al_target_type log)) env st1
       = (Ok (audit_logs_of (al_target_id log) (al_target_type log) st1), st1).
Proof.
  eexists _, _. split.
  { unfold exec. rewrite createAuditLog_run. reflexivity. }
  cbn [mem ticks draws].
  assert (Hin : forall id ty x,
    In x (audit_logs_of id ty
            (with_auditLogs st
               (auditLogs st ++
                [AuditLog.mk (random_id env 0) (al_actorUid log) (al_action log)
                   (al_target_type log) (al_target_id log) (Some (clock env 0))
                   (str_or_null (al_ip log)) (str_or_null (al_userAgent log))
                   (Js.or (al_metadata log) Js.Null)])%list))
    <-> In x (audit_logs_of id ty st)
        \/ (x = AuditLog.mk (random_id env 0) (al_actorUid log) (al_action log)
                  (al_target_type log) (al_target_id log) (Some (clock env 0))
                  (str_or_null (al_ip log)) (str_or_null (al_userAgent log))
                  (Js.or (al_metadata log) Js.Null)
            /\ id = al_target_id log /\ ty = al_target_type log)).
  { intros id ty x. unfold audit_logs_of. cbn [auditLogs with_auditLogs].
    rewrite !in_sort_desc, !filter_In, in_app_iff, !andb_true_iff, !String.eqb_eq.
    cbn [In]. split.
    - intros [[Hold|[<-|[]]] [Hid Hty]]; [left; auto|].
      right. cbn in Hid, Hty. auto.
    - intros [[Hold Hmatch]|(-> & -> & ->)]; [auto|].
      split; [right; left; reflexivity | split; reflexivity]. }
  split; [|split; [exact Hin|split]].
  - apply Hin. right. auto.
  - intros id ty. apply sort_desc_descending.
  - reflexivity.
Qed.

(* ===================================================================== *)
(** ** Office administration *)
(* ===================================================================== *)

Lemma not_admin_false (user : option User.t) :
  not_admin user = false <-> exists u, user = Some u /\ is_admin u = true.
Proof.
  destruct user as [u|]; cbn.
  - rewrite negb_false_iff. split; [eauto|]. intros (u' & E & H).
    injection E as <-. exact H.
  - split; [discriminate | intros (u' & E & _); discriminate].
Qed.

(** X21. Only an administrator assigns a user to an office: any other
    caller is answered 403 and the storage is unchanged.  For an
    administrator, an office that exists and a user that exists, the answer
    is 200, the user is afterwards among the members of the office, with
    the same id and roles, and nothing but the users map is written. *)
Theorem assign_office_by_admin (env : Env) (st : MemStorage)
  (offices : JsMap.t Office.t) (req : Req) (userId : string) (officeId : Js.value) :
  (not_admin (JsMap.get (req_userId req) (users st)) = true ->
   exec (post_assign_office offices req userId officeId) env st
   = (Ok (mkAdminResponse 403 (AdminMessage "Admin access required")), st))
  /\ (forall (o : string) (office : Office.t) (u : User.t),
        not_admin (JsMap.get (req_userId req) (users st)) = false ->
        officeId = Js.Str o -> o <> "" ->
        getOfficeByOfficeId o offices = Some office ->
        JsMap.get userId (users st) = Some u ->
        let u' := User.mk (User.id u) (User.email u) (User.roles u) (Some o) in
        exec (post_assign_office offices req userId officeId) env st
        = (Ok (mkAdminResponse 200
                 (UserAssigned "User assigned to office successfully" u')),
           with_users st (JsMap.set userId u' (users st)))
        /\ In u' (getOfficeMembers o (JsMap.set userId u' (users st))))
  /\ (forall r st',
        exec (post_assign_office offices req userId officeId) env st = (Ok r, st') ->
        admin_status r = 200%nat ->
        not_admin (JsMap.get (req_userId req) (users st)) = false).
Proof.
  split; [|split].
  - intros Hno. unfold exec, post_assign_office.
    rewrite (bind_ok _ _ _ _ _ _ (getUser_run env _ _)).
    cbn [mem]. rewrite Hno. reflexivity.
  - intros o office u Hadmin -> Ho Hoffice Hu u'. split.
    + apply truthy_str in Ho.
      unfold exec, post_assign_office.
      rewrite (bind_ok _ _ _ _ _ _ (getUser_run env _ _)).
      cbn [mem]. rewrite Hadmin, Ho, Hoffice. cbn [negb option_map].
      unfold bind, read, ret, modify. cbn [mem].
      unfold assignUserToOffice. rewrite Hu. reflexivity.
    + unfold getOfficeMembers. apply filter_In. split; [apply in_values_set|].
      unfold in_office. cbn. apply String.eqb_refl.
  - intros r st'. unfold exec, post_assign_office.
    rewrite (bind_ok _ _ _ _ _ _ (getUser_run env _ _)). cbn [mem].
    destruct (not_admin (JsMap.get (req_userId req) (users st))); [|reflexivity].
    intros H. injection H as <- _. discriminate.
Qed.

Lemma assign_office_by_admin_witness :
  exec (post_assign_office sample_offices (as_user "alice") "bob" (Js.Str "NYC001"))
    env0 (store_with DRAFT WF_DRAFT [])
  = (Ok (mkAdminResponse 403 (AdminMessage "Admin access required")),
     store_with DRAFT WF_DRAFT []).
Proof.
  destruct (assign_office_by_admin env0 (store_with DRAFT WF_DRAFT [])
              sample_offices (as_user "alice") "bob" (Js.Str "NYC001"))
    as [Hrefused _].
  apply Hrefused. reflexivity.
Defined.

Lemma in_values_after_set {V} (k : string) (v y : V) (m : JsMap.t V) :
  In y (JsMap.values (JsMap.set k v m)) -> y = v \/ In y (JsMap.values m).
Proof.
  unfold JsMap.values. induction m as [|[k' v'] rest IH]; cbn.
  - intros [<-|[]]. left. reflexivity.
  - destruct (String.eqb k' k); cbn.
    + intros [<-|H]; auto.
    + intros [<-|H]; [auto|]. destruct (IH H); auto.
Qed.

Lemma nodup_values_set {V X} (f : V -> X) (k : string) (v : V) (m : JsMap.t V) :
  NoDup (map f (JsMap.values m)) ->
  ~ In (f v) (map f (JsMap.values m)) ->
  NoDup (map f (JsMap.values (JsMap.set k v m))).
Proof.
  induction m as [|[k' v'] rest IH]; cbn.
  - intros _ _. constructor; [intros [] | constructor].
  - intros Hnodup Hnew. inversion Hnodup as [|? ? Hhead Hrest]; subst.
    destruct (String.eqb k' k); cbn.
    + constructor; [|exact Hrest]. intros Hin. apply Hnew. right. exact Hin.
    + constructor.
      * intros Hin. apply in_map_iff in Hin as (y & Hy & Hin).
        apply in_values_after_set in Hin as [->|Hin].
        -- apply Hnew. left. symmetry. exact Hy.
        -- apply Hhead. rewrite <- Hy. apply in_map. exact Hin.
      * apply IH; [exact Hrest|]. intros Hin. apply Hnew. right. exact Hin.
Qed.

(** X22. POST /api/offices keeps the office ids unique: whatever the
    request, if no two offices had the same office id before, none have
    after.  A caller who is not an administrator is answered 403, a body
    without the required strings 400, an office id that exists 400, and in
    these cases the offices are unchanged. *)
Theorem post_offices_keeps_ids_unique (env : Env) (st : MemStorage) (req : Req)
  (body : OfficeBody) (offices : JsMap.t Office.t) :
  exists (r : AdminResponse) (offices' : JsMap.t Office.t),
    fst (exec (post_offices req body offices) env st) = Ok (r, offices')
    /\ (unique_officeIds offices -> unique_officeIds offices')
    /\ (admin_status r <> 201%nat -> offices' = offices)
    /\ (not_admin (JsMap.get (req_userId req) (users st)) = true ->
        admin_status r = 403%nat)
    /\ (forall officeId existing,
          ob_officeId body = Js.Str officeId ->
          getOfficeByOfficeId officeId offices = Some existing ->
          admin_status r <> 201%nat).
Proof.
  unfold exec, post_offices.
  rewrite (bind_ok _ _ _ _ _ _ (getUser_run env _ _)). cbn [mem].
  unfold bind, ret.
  destruct (not_admin (JsMap.get (req_userId req) (users st))).
  { eexists _, _. split; [reflexivity|]. repeat split; auto; discriminate. }
  destruct (parse_insertOffice body) as [validatedData|] eqn:Hparse.
  2:{ eexists _, _. split; [reflexivity|]. repeat split; auto; discriminate. }
  destruct (getOfficeByOfficeId (io_officeId validatedData) offices)
    as [existing|] eqn:Hexisting.
  { eexists _, _. split; [reflexivity|]. repeat split; auto; discriminate. }
  unfold generateId, now, createOffice. cbn [mem ticks draws].
  eexists _, _. split; [reflexivity|]. cbn [fst snd admin_status].
  split; [|split; [|split]].
  - unfold unique_officeIds. intros Hunique.
    apply nodup_values_set; [exact Hunique|]. cbn [Office.officeId].
    intros Hin. apply in_map_iff in Hin as (o & Ho & Hin).
    unfold getOfficeByOfficeId in Hexisting.
    pose proof (find_none _ _ Hexisting o Hin) as Hno. cbn in Hno.
    rewrite Ho, String.eqb_refl in Hno. discriminate.
  - intros H. contradiction.
  - discriminate.
  - intros officeId existing HofficeId Hfound. exfalso.
    unfold parse_insertOffice in Hparse. rewrite HofficeId in Hparse.
    destruct (ob_name body), (ob_officeCode body), (ob_officePassword body);
      try discriminate.
    injection Hparse as <-. cbn [io_officeId] in Hexisting. congruence.
Qed.

Lemma post_offices_keeps_ids_unique_witness :
  exists r offices',
    fst (exec (post_offices (as_user "root")
                 (mkOfficeBody (Js.Str "NYC001") (Js.Str "Second New York")
                    (Js.Str "NYC002") (Js.Str "secret99") None None None None)
                 sample_offices) env0 (store_with DRAFT WF_DRAFT []))
    = Ok (r, offices')
    /\ offices' = sample_offices.
Proof.
  destruct (post_offices_keeps_ids_unique env0 (store_with DRAFT WF_DRAFT [])
              (as_user "root")
              (mkOfficeBody (Js.Str "NYC001") (Js.Str "Second New York")
                 (Js.Str "NYC002") (Js.Str "secret99") None None None None)
              sample_offices)
    as (r & offices' & Hrun & _ & Hsame & _ & Hexists).
  exists r, offices'. split; [exact Hrun|]. apply Hsame.
  apply (Hexists "NYC001" nyc); reflexivity.
Defined.

(* ===================================================================== *)
(** ** Messages of an office *)
(* ===================================================================== *)



(* ===================================================================== *)
(** ** Comments *)
(* ===================================================================== *)

(** X24. The comment route asks neither whether the document exists nor
    whether the caller may read it: for every storage, caller and document
    id, a body that is a string is answered 201; the comment is stored with
    the caller as author, unresolved unless the request says otherwise, and
    is returned by getDocumentComments for that id; one ADD_COMMENT audit
    entry is written and nothing else of the storage changes.  Any other
    body is answered 500 and nothing is stored. *)
Theorem comment_without_access_check (env : Env) (st : MemStorage) (req : Req)
  (docId : string) (body resolved : Js.value)
  (comments : JsMap.t DocumentComment.t) :
  (forall (text : string),
     body = Js.Str text ->
     resolved = Js.Undefined \/ resolved = Js.Null \/ (exists b, resolved = Js.Bool b) ->
     exists (comment : DocumentComment.t) (comments' : JsMap.t DocumentComment.t)
            (st' : MemStorage) (e : AuditLog.t),
       exec (post_comments req docId body resolved comments) env st
       = (Ok (mkCommentResponse 201 (CommentCreated comment), comments'), st')
       /\ DocumentComment.docId comment = docId
       /\ DocumentComment.authorUid comment = req_userId req
       /\ DocumentComment.body comment = text
       /\ (resolved = Js.Undefined \/ resolved = Js.Null ->
           DocumentComment.resolved comment = Some false)
       /\ In comment (getDocumentComments docId comments')
       /\ st' = with_auditLogs st (auditLogs st ++ [e])%list
       /\ audit_entry_of req "ADD_COMMENT" docId e)
  /\ (parse_insertComment docId (req_userId req) body resolved = None ->
      exec (post_comments req docId body resolved comments) env st
      = (Ok (mkCommentResponse 500 (CommentMessage "Failed to create comment"),
             comments), st)).
Proof.
  split.
  - intros text -> Hresolved.
    assert (Hparse : exists r,
      parse_insertComment docId (req_userId req) (Js.Str text) resolved
      = Some (mkInsertComment docId (req_userId req) text r)
      /\ (resolved = Js.Undefined \/ resolved = Js.Null -> r = None)).
    { destruct Hresolved as [-> | [-> | [b ->]]].
      - exists None. split; [reflexivity | auto].
      - exists None. split; [reflexivity | auto].
      - exists (Some b). split; [reflexivity|]. intros [H|H]; discriminate. }
    destruct Hparse as (r & Hparse & Hdefault).
    unfold exec, post_comments. rewrite Hparse.
    unfold bind, generateId, now, createComment, createAuditLog, modify, ret.
    cbn [mem ticks draws].
    eexists _, _, _, _. split; [reflexivity|].
    cbn [DocumentComment.docId DocumentComment.authorUid DocumentComment.body
           DocumentComment.resolved ic_docId ic_authorUid ic_body ic_resolved].
    split; [reflexivity|]. split; [reflexivity|]. split; [reflexivity|].
    split; [|split; [|split]].
    + intros H. rewrite (Hdefault H). reflexivity.
    + unfold getDocumentComments. apply in_sort_desc, filter_In.
      split; [apply in_values_set|]. cbn. apply String.eqb_refl.
    + reflexivity.
    + repeat split.
  - intros Hparse. unfold exec, post_comments. rewrite Hparse. reflexivity.
Qed.

Lemma comment_without_access_check_witness :
  exists comment comments' st',
    exec (post_comments (as_user "mallory") "no-such-document"
            (Js.Str "hello") Js.Undefined []) env0 (store_with DRAFT WF_DRAFT [])
    = (Ok (mkCommentResponse 201 (CommentCreated comment), comments'), st')
    /\ DocumentComment.authorUid comment = "mallory".
Proof.
  destruct (comment_without_access_check env0 (store_with DRAFT WF_DRAFT [])
              (as_user "mallory") "no-such-document" (Js.Str "hello")
              Js.Undefined []) as [Hcreated _].
  destruct (Hcreated "hello" eq_refl (or_introl eq_refl))
    as (comment & comments' & st' & e & Hrun & _ & Hauthor & _).
  exists comment, comments', st'. split; [exact Hrun | exact Hauthor].
Defined.

(* ===================================================================== *)
(** ** Uploading a version: what is written *)
(* ===================================================================== *)

(** X25. An upload is not atomic on the storage of the program, and it is
    never answered 201.  With a file, on a document that the caller may
    edit, and with the file moved, the handler stores the new version and
    then calls [storage.updateDocument], which throws: the request is
    answered 500 and the version stays in the storage, returned by
    getDocumentVersions, while currentVersionId of the document is not
    updated and no audit entry is made.  Every other upload (no file,
    unknown document, access denied, failed file move) leaves the whole
    storage as it was. *)
Theorem upload_outcome (env : Env) (st : MemStorage) (req : Req)
  (docId : string) (file : option UploadedFile) (changeSummary : option string)
  (fs_ok : bool) :
  let (response, st') :=
    serve (post_versions req docId file changeSummary fs_ok) env st in
  res_status response <> 201%nat
  /\ documents st' = documents st
  /\ auditLogs st' = auditLogs st
  /\ match file, JsMap.get docId (documents st) with
     | Some f, Some document =>
         if canEditDocument document (JsMap.get (req_userId req) (users st))
            && fs_ok
         then
           response = mkResponse 500 (Message "Failed to upload version")
           /\ exists version : DocumentVersion.t,
                st' = with_documentVersions st
                        (JsMap.set (random_id env 0) version (documentVersions st))
                /\ DocumentVersion.id version = random_id env 0
                /\ DocumentVersion.docId version = docId
                /\ DocumentVersion.createdBy version = req_userId req
                /\ DocumentVersion.fileName version = originalname f
                /\ In version (versions_of docId st')
         else st' = st
     | _, _ => st' = st
     end.
Proof.
  destruct file as [file|].
  2:{ cbn. repeat split. discriminate. }
  destruct (JsMap.get docId (documents st)) as [document|] eqn:Hdoc.
  2:{ unfold post_versions. run_handler. rewrite Hdoc. cbn.
      repeat split. discriminate. }
  destruct (canEditDocument document (JsMap.get (req_userId req) (users st)))
    eqn:Hedit.
  2:{ unfold post_versions. run_handler. rewrite Hdoc. cbn [mem].
      rewrite Hedit. cbn. repeat split. discriminate. }
  destruct fs_ok.
  2:{ unfold post_versions. run_handler. rewrite Hdoc. cbn [mem].
      rewrite Hedit. cbn. repeat split. discriminate. }
  rewrite (post_versions_stored env st req docId file changeSummary document
             Hdoc Hedit).
  cbn [res_status andb documents auditLogs with_documentVersions].
  split; [discriminate|]. split; [reflexivity|]. split; [reflexivity|].
  split; [reflexivity|].
  exists (uploaded_version env st req docId file changeSummary).
  split; [reflexivity|]. split; [reflexivity|]. split; [reflexivity|].
  split; [reflexivity|]. split; [reflexivity|].
  unfold versions_of. apply in_sort_desc. apply filter_In. split.
  - cbn [documentVersions with_documentVersions]. apply in_values_set.
  - cbn. apply String.eqb_refl.
Qed.

Lemma upload_outcome_witness :
  serve (post_versions (as_user "alice") "d1" (Some upload) None true) env0
    (store_with DRAFT WF_DRAFT [])
  = (mkResponse 500 (Message "Failed to upload version"), store_after_upload)
  /\ map DocumentVersion.versionNumber (versions_of "d1" store_after_upload)
     = ["1.0"]
  /\ option_map Document.currentVersionId
       (JsMap.get "d1" (documents store_after_upload))
     = Some None.
Proof.
  pose proof (upload_outcome env0 (store_with DRAFT WF_DRAFT []) (as_user "alice")
                "d1" (Some upload) None true) as H.
  unfold store_after_upload.
  destruct (serve (post_versions (as_user "alice") "d1" (Some upload) None true)
              env0 (store_with DRAFT WF_DRAFT [])) as [response st'] eqn:Hrun.
  cbn in H. destruct H as (_ & _ & _ & Hr & _).
  rewrite Hr. cbn [snd]. split; [reflexivity|].
  cbn in Hrun. injection Hrun as _ <-. split; reflexivity.
Defined.

